(** * order-up: the order service, its storage layer and its HTTP handlers

    A shallow embedding of the Go packages [storage] (order.go, db.go) and
    [api] (api.go), with the three external libraries they call modelled by
    what the code relies on:

    - the MongoDB driver: a collection is the list of its documents in
      insertion order; no unique index exists ([ensureSchema] creates none),
      so two documents may carry the same ["id"];
    - google/uuid: [uuid.New()] hands back sixteen bytes chosen by the
      environment, [String()] prints them in the 8-4-4-4-12 form;
    - gin: a handler appends JSON writes to its context; the status of the
      HTTP response is the status of the first write.

    What the environment decides during one request is an argument of the
    model: the failures of the driver ([mongo.Faults]), the UUID that is
    drawn, and the charge service (a function from the request it receives
    to its answer).  "For every execution" is a quantification over these. *)

From Stdlib Require Import ZArith List String Ascii Bool Lia DecimalString Permutation.
From Stdlib Require Strings.Byte.
Import ListNotations.

Local Open Scope Z_scope.
Local Open Scope string_scope.

(* ------------------------------------------------------------------ *)
(** ** Go base types *)

Module int64.

Definition min : Z := - 2 ^ 63.
Definition max : Z := 2 ^ 63 - 1.

Definition in_range (z : Z) : Prop := min <= z <= max.

(** Two's-complement reduction of an exact integer to an [int64]. *)
Definition wrap (z : Z) : Z := (z + 2 ^ 63) mod 2 ^ 64 - 2 ^ 63.

Definition add (a b : Z) : Z := wrap (a + b).
Definition mul (a b : Z) : Z := wrap (a * b).

End int64.

(** A Go slice: [None] is the nil slice, [Some l] a slice with elements [l].
    JSON encodes the former as [null] and the latter as an array. *)
Definition slice (A : Type) : Type := option (list A).

Definition elems {A} (s : slice A) : list A :=
  match s with
  | None => []
  | Some l => l
  end.

Definition len {A} (s : slice A) : Z := Z.of_nat (List.length (elems s)).

Definition append {A} (s : slice A) (x : A) : slice A := Some (elems s ++ [x])%list.

(** [strings.Contains]. *)
Definition strings_Contains (s substr : string) : bool :=
  match String.index 0 substr s with
  | Some _ => true
  | None => false
  end.

(** Go [error] values.  The sentinels are compared by identity in Go, so
    each has a constructor of its own; [ErrOther] is any other error value
    (a transport failure, a cancelled context, a decoding error);
    [Wrapf prefix e] is [fmt.Errorf(prefix + "%w", e)]. *)
Inductive error : Type :=
| ErrOrderNotFound
| ErrOrderExists
| mongo_ErrNoDocuments
| ErrOther (msg : string)
| Wrapf (prefix : string) (e : error).

(** [err.Error()]. *)
Fixpoint Error (e : error) : string :=
  match e with
  | ErrOrderNotFound => "order not found"
  | ErrOrderExists => "order already exists"
  | mongo_ErrNoDocuments => "mongo: no documents in result"
  | ErrOther msg => msg
  | Wrapf prefix e' => prefix ++ Error e'
  end.

(** Identity of two error values, without unwrapping. *)
Definition error_same (e target : error) : bool :=
  match e, target with
  | ErrOrderNotFound, ErrOrderNotFound => true
  | ErrOrderExists, ErrOrderExists => true
  | mongo_ErrNoDocuments, mongo_ErrNoDocuments => true
  | _, _ => false
  end.

(** [errors.Is] against one of the sentinels: walks the [%w] chain. *)
Fixpoint errors_Is (e target : error) : bool :=
  error_same e target ||
  match e with
  | Wrapf _ e' => errors_Is e' target
  | _ => false
  end.

(* ------------------------------------------------------------------ *)
(** ** google/uuid *)

Module uuid.

(** The sixteen bytes of a UUID. *)
Definition UUID : Type := list Byte.byte.

Definition hexdigit (n : N) : ascii :=
  match n with
  | 0%N => "0" | 1%N => "1" | 2%N => "2" | 3%N => "3"
  | 4%N => "4" | 5%N => "5" | 6%N => "6" | 7%N => "7"
  | 8%N => "8" | 9%N => "9" | 10%N => "a" | 11%N => "b"
  | 12%N => "c" | 13%N => "d" | 14%N => "e" | _ => "f"
  end%char.

(** [hex.Encode]: two lower-case digits per byte. *)
Fixpoint hex_Encode (bs : list Byte.byte) : string :=
  match bs with
  | [] => EmptyString
  | b :: bs' =>
      let n := Byte.to_N b in
      String (hexdigit (N.div n 16)) (String (hexdigit (N.modulo n 16)) (hex_Encode bs'))
  end.

Definition sub (u : UUID) (from to : nat) : list Byte.byte :=
  firstn (to - from) (skipn from u).

(** [UUID.String]: xxxxxxxx-xxxx-xxxx-xxxx-xxxxxxxxxxxx. *)
Definition String (u : UUID) : string :=
  hex_Encode (sub u 0 4) ++ "-" ++ hex_Encode (sub u 4 6) ++ "-" ++
  hex_Encode (sub u 6 8) ++ "-" ++ hex_Encode (sub u 8 10) ++ "-" ++
  hex_Encode (sub u 10 16).

End uuid.

(* ------------------------------------------------------------------ *)
(** ** The MongoDB driver *)

Module mongo.

(** The documents of a collection, oldest first. *)
Definition Collection (D : Type) : Type := list D.

(** What goes wrong in the driver or on the way to the server during one
    request; [None]: the call goes through.  A failing call changes
    nothing in the collection. *)
Record Faults : Type := {
  FindOneErr : option error;
  FindErr : option error;
  DecodeErr : option error;
  UpdateOneErr : option error;
  InsertOneErr : option error
}.

Definition healthy : Faults :=
  {| FindOneErr := None; FindErr := None; DecodeErr := None;
     UpdateOneErr := None; InsertOneErr := None |}.

(** [collection.FindOne(ctx, filter).Decode(&d)]: the first document that
    passes the filter, [ErrNoDocuments] when there is none. *)
Definition FindOne {D} (f : Faults) (c : Collection D) (filter : D -> bool)
  : D + error :=
  match FindOneErr f with
  | Some e => inr e
  | None =>
      match find filter c with
      | Some d => inl d
      | None => inr mongo_ErrNoDocuments
      end
  end.

(** [collection.Find(ctx, filter)]: a cursor over the documents that pass
    the filter; finding none is not an error. *)
Definition Find {D} (f : Faults) (c : Collection D) (filter : D -> bool)
  : list D + error :=
  match FindErr f with
  | Some e => inr e
  | None => inl (List.filter filter c)
  end.

(** [cursor.Decode(&d)] on the current document. *)
Definition Decode {D} (f : Faults) (d : D) : D + error :=
  match DecodeErr f with
  | Some e => inr e
  | None => inl d
  end.

Fixpoint update_first {D} (filter : D -> bool) (update : D -> D) (c : Collection D)
  : Collection D :=
  match c with
  | [] => []
  | d :: c' =>
      if filter d then update d :: c' else d :: update_first filter update c'
  end.

(** [collection.UpdateOne(ctx, filter, update)]: updates the first
    document that passes the filter; the result is [MatchedCount]. *)
Definition UpdateOne {D} (f : Faults) (c : Collection D)
    (filter : D -> bool) (update : D -> D) : Collection D * (Z + error) :=
  match UpdateOneErr f with
  | Some e => (c, inr e)
  | None =>
      (update_first filter update c,
       inl (if existsb filter c then 1 else 0))
  end.

(** [collection.InsertOne(ctx, d)]. *)
Definition InsertOne {D} (f : Faults) (c : Collection D) (d : D)
  : Collection D * option error :=
  match InsertOneErr f with
  | Some e => (c, Some e)
  | None => ((c ++ [d])%list, None)
  end.

End mongo.

(* ------------------------------------------------------------------ *)
(** ** package storage: order.go *)

Module storage.

(** [type OrderStatus int64]. *)
Definition OrderStatus : Type := Z.

Definition OrderStatusPending : OrderStatus := 0.
Definition OrderStatusCharged : OrderStatus := 1.
Definition OrderStatusFulfilled : OrderStatus := 2.

Record LineItem : Type := {
  Description : string;
  PriceCents : Z;
  Quantity : Z
}.

Record Order : Type := {
  ID : string;
  CustomerEmail : string;
  LineItems : slice LineItem;
  Status : OrderStatus
}.

(** [func (o Order) TotalCents() int64]: the loop adds, with the
    wrap-around of [int64], the product of price and quantity of each
    line item to a total that starts at zero. *)
Definition TotalCents (o : Order) : Z :=
  fold_left
    (fun total li => int64.add total (int64.mul (PriceCents li) (Quantity li)))
    (elems (LineItems o)) 0.

(** The exact (unbounded) signed sum of price times quantity. *)
Definition exact_total (items : list LineItem) : Z :=
  fold_right (fun li acc => PriceCents li * Quantity li + acc) 0 items.

(** The zero value [Order{}]. *)
Definition Order_zero : Order :=
  {| ID := ""; CustomerEmail := ""; LineItems := None; Status := 0 |}.

(* ---------------------------------------------------------------- *)
(** *** storage.go, db.go *)

(** [type Instance struct]: the handle on the collection; its state is
    the documents the collection holds. *)
Record Instance : Type := {
  database : string;
  collection : mongo.Collection Order
}.

Definition with_collection (i : Instance) (c : mongo.Collection Order) : Instance :=
  {| database := database i; collection := c |}.

(** The filters the code builds: [{"id": id}], [{"status": status}], [{}]. *)
Definition filter_id (id : string) : Order -> bool :=
  fun o => String.eqb (ID o) id.
Definition filter_status (status : OrderStatus) : Order -> bool :=
  fun o => (Status o =? status)%Z.
Definition filter_all : Order -> bool :=
  fun _ => true.

(** The update [{"$set": {"status": status}}]. *)
Definition set_status (status : OrderStatus) (o : Order) : Order :=
  {| ID := ID o; CustomerEmail := CustomerEmail o;
     LineItems := LineItems o; Status := status |}.

Definition with_ID (o : Order) (id : string) : Order :=
  {| ID := id; CustomerEmail := CustomerEmail o;
     LineItems := LineItems o; Status := Status o |}.

Section Methods.

(** What the driver does wrong, and which UUID is drawn, during the
    call at hand. *)
Variable f : mongo.Faults.
Variable uuid_New : uuid.UUID.

Definition GetOrder (i : Instance) (id : string) : Order * option error :=
  let filter := filter_id id in
  match mongo.FindOne f (collection i) filter with
  | inr err =>
      if errors_Is err mongo_ErrNoDocuments
      then (Order_zero, Some ErrOrderNotFound)
      else (Order_zero, Some err)
  | inl order => (order, None)
  end.

(** The loop [for cursor.Next(ctx) { ... }] of [GetOrders]. *)
Fixpoint decode_all (cursor : list Order) (orders : slice Order)
  : slice Order * option error :=
  match cursor with
  | [] => (orders, None)
  | doc :: rest =>
      match mongo.Decode f doc with
      | inr err => (None, Some (Wrapf "error decoding document: " err))
      | inl order => decode_all rest (append orders order)
      end
  end.

Definition GetOrders (i : Instance) (status : OrderStatus)
  : slice Order * option error :=
  let orders : slice Order := None in
  let filter := if (status =? -1)%Z then filter_all else filter_status status in
  match mongo.Find f (collection i) filter with
  | inr err =>
      if errors_Is err mongo_ErrNoDocuments
      then (orders, Some ErrOrderNotFound)
      else (orders, Some err)
  | inl cursor => decode_all cursor orders
  end.

Definition SetOrderStatus (i : Instance) (id : string) (status : OrderStatus)
  : Instance * option error :=
  let filter := filter_id id in
  let update := set_status status in
  match mongo.UpdateOne f (collection i) filter update with
  | (c, inr err) => (with_collection i c, Some err)
  | (c, inl MatchedCount) =>
      if (MatchedCount =? 0)%Z
      then (with_collection i c, Some ErrOrderNotFound)
      else (with_collection i c, None)
  end.

(** The tail of [InsertOrder], from [InsertOne] on.  The verb [%e] of
    the error message does not wrap its operand. *)
Definition insert_document (i : Instance) (order : Order)
  : Instance * (string * option error) :=
  match mongo.InsertOne f (collection i) order with
  | (c, Some err) =>
      (with_collection i c,
       ("", Some (ErrOther ("error inserting document: %!e(" ++ Error err ++ ")"))))
  | (c, None) => (with_collection i c, (ID order, None))
  end.

Definition InsertOrder (i : Instance) (order : Order)
  : Instance * (string * option error) :=
  if String.eqb (ID order) ""
  then
    let id := uuid_New in
    let order := with_ID order (uuid.String id) in
    insert_document i order
  else
    let filter := filter_id (ID order) in
    match mongo.FindOne f (collection i) filter with
    | inl _ => (i, ("", Some ErrOrderExists))
    | inr _ => insert_document i order
    end.

End Methods.

End storage.

(* ------------------------------------------------------------------ *)
(** ** package mocks: the interface the handlers see *)

Module mocks.

(** [type StorageInstance interface], over the state [S] of the
    implementation; every method hands the state back. *)
Class StorageInstance (S : Type) : Type := {
  GetOrder : S -> string -> S * (storage.Order * option error);
  GetOrders : S -> storage.OrderStatus -> S * (slice storage.Order * option error);
  SetOrderStatus : S -> string -> storage.OrderStatus -> S * option error;
  InsertOrder : S -> storage.Order -> S * (string * option error)
}.

End mocks.

(** [*storage.Instance] implements [mocks.StorageInstance]; this is what
    [main] passes to [api.Handler]. *)
Definition storage_Instance (f : mongo.Faults) (uuid_New : uuid.UUID)
  : mocks.StorageInstance storage.Instance :=
  {| mocks.GetOrder i id := (i, storage.GetOrder f i id);
     mocks.GetOrders i status := (i, storage.GetOrders f i status);
     mocks.SetOrderStatus i id status := storage.SetOrderStatus f i id status;
     mocks.InsertOrder i order := storage.InsertOrder f uuid_New i order |}.

(* ------------------------------------------------------------------ *)
(** ** net/http and gin *)

Module http.

Definition StatusOK : Z := 200.
Definition StatusCreated : Z := 201.
Definition StatusBadRequest : Z := 400.
Definition StatusNotFound : Z := 404.
Definition StatusConflict : Z := 409.
Definition StatusInternalServerError : Z := 500.

Record Response : Type := {
  StatusCode : Z;
  Body : string
}.

(** A [*http.Client] as the handlers use it: what comes back when a JSON
    payload of type [A] is sent to a path of the service. *)
Definition Client (A : Type) : Type := string -> A -> Response + error.

End http.

Module gin.

(** A segment of a route: a literal or a [:name] parameter. *)
Inductive segment : Type :=
| Lit (s : string)
| Par (name : string).

(** Matching the segments of a clean request path against a route; the
    result binds the parameters.  A parameter takes one non-empty segment. *)
Fixpoint match_path (route : list segment) (path : list string)
  : option (list (string * string)) :=
  match route, path with
  | [], [] => Some []
  | Lit s :: route', p :: path' =>
      if String.eqb s p then match_path route' path' else None
  | Par name :: route', p :: path' =>
      if String.eqb p "" then None
      else option_map (cons (name, p)) (match_path route' path')
  | _, _ => None
  end.

(** [c.Param(key)]: the empty string when the route has no such parameter. *)
Fixpoint Param (params : list (string * string)) (key : string) : string :=
  match params with
  | [] => ""
  | (k, v) :: rest => if String.eqb k key then v else Param rest key
  end.

End gin.

(* ------------------------------------------------------------------ *)
(** ** package api *)

Module api.

(** [type chargeServiceChargeArgs struct]. *)
Module chargeServiceChargeArgs.
Record t : Type := { CardToken : string; AmountCents : Z }.
End chargeServiceChargeArgs.

(** [type chargeOrderArgs struct]. *)
Module chargeOrderArgs.
Record t : Type := { CardToken : string }.
End chargeOrderArgs.

(** [type postOrderArgs struct]. *)
Record postOrderArgs : Type := {
  CustomerEmail : string;
  LineItems : slice storage.LineItem
}.

(** [type fulfillmentServiceFulfillArgs struct]: declared, used by no
    handler. *)
Record fulfillmentServiceFulfillArgs : Type := {
  Description : string;
  Quantity : Z;
  OrderID : string
}.

(** What a handler hands to [c.JSON]: [gin.H{"error": msg}] or one of the
    result structs; [plain] is the text gin itself answers with. *)
Inductive Body : Type :=
| H_error (msg : string)
| getOrdersRes (Orders : slice storage.Order)
| getOrderRes (Order : storage.Order)
| postOrderRes (Order : storage.Order)
| chargeOrderRes (ChargedCents : Z)
| plain (text : string).

(** One write to the response. *)
Record Reply : Type := { code : Z; obj : Body }.

Definition JSON (code : Z) (obj : Body) : list Reply :=
  [ {| code := code; obj := obj |} ].

(** The status the client sees: gin keeps the status of the first write
    and only warns about later ones. *)
Definition status (written : list Reply) : Z :=
  match written with
  | [] => http.StatusOK
  | r :: _ => code r
  end.

(** An incoming request.  The body is given by what [c.BindJSON] makes of
    it for each of the two argument structs. *)
Record Request : Type := {
  Method : string;
  Path : list string;
  Query : string -> string;
  BindJSON_postOrderArgs : postOrderArgs + error;
  BindJSON_chargeOrderArgs : chargeOrderArgs.t + error
}.

(** [*gin.Context]: the request and the parameters bound by the route. *)
Record Context : Type := {
  Req : Request;
  Params : list (string * string)
}.

(** The state a request runs against: the storage behind [i.stor] and the
    requests the charge service has received so far. *)
Record World (S : Type) : Type := {
  stor : S;
  charged : list chargeServiceChargeArgs.t
}.
Arguments stor {S} _.
Arguments charged {S} _.

Definition with_stor {S} (w : World S) (s : S) : World S :=
  {| stor := s; charged := charged w |}.

(** The [switch c.Query("status")] of [getOrders]; [None] is its
    [default] case, -1 asks for the orders of every status. *)
Definition status_of_query (q : string) : option storage.OrderStatus :=
  if String.eqb q "pending" then Some storage.OrderStatusPending
  else if String.eqb q "charged" then Some storage.OrderStatusCharged
  else if String.eqb q "fulfilled" then Some storage.OrderStatusFulfilled
  else if String.eqb q "" then Some (-1)
  else None.

Section Handlers.

Context {S : Type} {SI : mocks.StorageInstance S}.

(** The two [*http.Client]s of [type instance struct]. *)
Variable fulfillmentService : http.Client fulfillmentServiceFulfillArgs.
Variable chargeService : http.Client chargeServiceChargeArgs.t.

Definition HandlerFunc : Type := Context -> World S -> World S * list Reply.

Definition getOrders : HandlerFunc := fun c w =>
  match status_of_query (Query (Req c) "status") with
  | None =>
      (w, JSON http.StatusBadRequest (H_error "unknown value for status: %v"))
  | Some status =>
      let '(s, (orders, err)) := mocks.GetOrders (stor w) status in
      let w := with_stor w s in
      match err with
      | Some err =>
          (w, JSON http.StatusInternalServerError
                (H_error ("error getting orders: " ++ Error err)))
      | None =>
          let orders :=
            match orders with
            | None => Some []
            | Some _ => orders
            end in
          (w, JSON http.StatusOK (getOrdersRes orders))
      end
  end.

Definition getOrder : HandlerFunc := fun c w =>
  let id := gin.Param (Params c) "id" in
  let '(s, (order, err)) := mocks.GetOrder (stor w) id in
  let w := with_stor w s in
  match err with
  | Some err =>
      if errors_Is err ErrOrderNotFound
      then (w, JSON http.StatusNotFound (H_error "not found"))
      else (w, JSON http.StatusInternalServerError
                 (H_error ("error getting order: " ++ Error err)))
  | None => (w, JSON http.StatusOK (getOrderRes order))
  end.

Definition postOrders : HandlerFunc := fun c w =>
  match BindJSON_postOrderArgs (Req c) with
  | inr err =>
      (w, JSON http.StatusBadRequest
            (H_error ("error decoding body: " ++ Error err)))
  | inl args =>
      if negb (strings_Contains (CustomerEmail args) "@")
      then (w, JSON http.StatusBadRequest (H_error "invalid customerEmail"))
      else if (len (LineItems args) <? 1)%Z
      then (w, JSON http.StatusBadRequest
                 (H_error "an order must contain at least one line item"))
      else
        let order :=
          {| storage.ID := "";
             storage.CustomerEmail := CustomerEmail args;
             storage.LineItems := LineItems args;
             storage.Status := storage.OrderStatusPending |} in
        (* this branch writes and does not return *)
        let written :=
          if (storage.TotalCents order <? 0)%Z
          then JSON http.StatusBadRequest
                 (H_error "an order's total cannot be less than 0")
          else [] in
        let '(s, (id, err)) := mocks.InsertOrder (stor w) order in
        let w := with_stor w s in
        match err with
        | Some err =>
            if errors_Is err ErrOrderExists
            then (w, written ++ JSON http.StatusConflict
                                  (H_error "order already exists"))%list
            else (w, written ++ JSON http.StatusInternalServerError
                                  (H_error ("error inserting order: " ++ Error err)))%list
        | None =>
            let order := storage.with_ID order id in
            (w, written ++ JSON http.StatusCreated (postOrderRes order))%list
        end
  end.

(** [innerChargeOrder]: posts the arguments to [/charge]; anything but
    a 201 is an error.  [json.Marshal] cannot fail on a struct of a
    string and an [int64]. *)
Definition innerChargeOrder (w : World S) (args : chargeServiceChargeArgs.t)
  : World S * option error :=
  let w := {| stor := stor w; charged := (charged w ++ [args])%list |} in
  match chargeService "/charge" args with
  | inr err => (w, Some (Wrapf "error making charge request: " err))
  | inl resp =>
      if negb (http.StatusCode resp =? http.StatusCreated)%Z
      then (w, Some (ErrOther
              ("error charging body: "
               ++ NilZero.string_of_int (Z.to_int (http.StatusCode resp))
               ++ " " ++ http.Body resp)))
      else (w, None)
  end.

Definition chargeOrder : HandlerFunc := fun c w =>
  match BindJSON_chargeOrderArgs (Req c) with
  | inr err =>
      (w, JSON http.StatusBadRequest
            (H_error ("error decoding body: " ++ Error err)))
  | inl args =>
      let id := gin.Param (Params c) "id" in
      let '(s, (order, err)) := mocks.GetOrder (stor w) id in
      let w := with_stor w s in
      match err with
      | Some err =>
          if errors_Is err ErrOrderNotFound
          then (w, JSON http.StatusNotFound (H_error "not found"))
          else (w, JSON http.StatusInternalServerError
                     (H_error ("error getting order: " ++ Error err)))
      | None =>
          if negb (storage.Status order =? storage.OrderStatusCharged)%Z
          then (w, JSON http.StatusConflict
                     (H_error "order ineligible for charging"))
          else
            let '(w, err) :=
              innerChargeOrder w
                {| chargeServiceChargeArgs.CardToken := chargeOrderArgs.CardToken args;
                   chargeServiceChargeArgs.AmountCents := storage.TotalCents order |} in
            match err with
            | Some err =>
                (w, JSON http.StatusInternalServerError (H_error (Error err)))
            | None =>
                let '(s, err) :=
                  mocks.SetOrderStatus (stor w) (storage.ID order)
                    storage.OrderStatusCharged in
                let w := with_stor w s in
                match err with
                | Some err =>
                    (w, JSON http.StatusInternalServerError
                          (H_error ("error updating order to charged: " ++ Error err)))
                | None =>
                    (w, JSON http.StatusOK
                          (chargeOrderRes (storage.TotalCents order)))
                end
            end
      end
  end.

(** The routes [Handler] registers, in its order. *)
Definition routes : list (string * list gin.segment * HandlerFunc) :=
  [ ("GET", [gin.Lit "orders"], getOrders);
    ("POST", [gin.Lit "orders"], postOrders);
    ("GET", [gin.Lit "orders"; gin.Par "id"], getOrder);
    ("POST", [gin.Lit "orders"; gin.Par "id"; gin.Lit "charge"], chargeOrder) ].

(** The router: the handler of the first route with the method and a
    matching path; gin's own 404 when there is none. *)
Fixpoint dispatch (rs : list (string * list gin.segment * HandlerFunc))
    (r : Request) (w : World S) : World S * list Reply :=
  match rs with
  | [] => (w, [ {| code := http.StatusNotFound; obj := plain "404 page not found" |} ])
  | (method, route, h) :: rs' =>
      if String.eqb method (Method r)
      then match gin.match_path route (Path r) with
           | Some params => h {| Req := r; Params := params |} w
           | None => dispatch rs' r w
           end
      else dispatch rs' r w
  end.

(** [func (i *instance) ServeHTTP]. *)
Definition ServeHTTP (r : Request) (w : World S) : World S * list Reply :=
  dispatch routes r w.

End Handlers.


End api.

(* ------------------------------------------------------------------ *)
(** ** Fixtures: the orders and requests of the repository's tests *)

Module fixtures.

Definition item (description : string) (price quantity : Z) : storage.LineItem :=
  {| storage.Description := description;
     storage.PriceCents := price;
     storage.Quantity := quantity |}.

(** The order of [TestChargeOrder], with the status and line items of
    each of its cases. *)
Definition order (status : storage.OrderStatus) (items : list storage.LineItem)
  : storage.Order :=
  {| storage.ID := "test";
     storage.CustomerEmail := "test@test";
     storage.LineItems := Some items;
     storage.Status := status |}.

Definition instance_of (docs : list storage.Order) : storage.Instance :=
  {| storage.database := "order_up"; storage.collection := docs |}.

Definition world_of (docs : list storage.Order) : api.World storage.Instance :=
  {| api.stor := instance_of docs; api.charged := [] |}.

(** A version-4 UUID: 00000000-0000-4000-8000-000000000000. *)
Definition uuid0 : uuid.UUID :=
  (repeat Byte.x00 6 ++ [Byte.x40; Byte.x00; Byte.x80] ++ repeat Byte.x00 7)%list.

(** A request whose body decodes to the given structs. *)
Definition request (method : string) (path : list string)
    (post : api.postOrderArgs + error) (charge : api.chargeOrderArgs.t + error)
  : api.Request :=
  {| api.Method := method; api.Path := path; api.Query := fun _ => "";
     api.BindJSON_postOrderArgs := post;
     api.BindJSON_chargeOrderArgs := charge |}.

(** POST /orders/test/charge with the body {"cardToken":"amex"}. *)
Definition charge_request : api.Request :=
  request "POST" ["orders"; "test"; "charge"]
    (inl {| api.CustomerEmail := ""; api.LineItems := None |})
    (inl {| api.chargeOrderArgs.CardToken := "amex" |}).


(** The charge service of the tests: every charge is created. *)
Definition charge_created : http.Client api.chargeServiceChargeArgs.t :=
  fun _ _ => inl {| http.StatusCode := http.StatusCreated; http.Body := "" |}.


(** The body of the "negative order amount" case of [TestPostOrders]. *)
Definition negative_args : api.postOrderArgs :=
  {| api.CustomerEmail := "test@test";
     api.LineItems := Some [item "item 1" 1000 1; item "huge discount" (-10000) 1] |}.

(** An order whose single line overflows [int64]: 2^62 cents, four times. *)
Definition overflow_order : storage.Order :=
  order storage.OrderStatusPending [item "item 1" (2 ^ 62) 4].

End fixtures.

(* ------------------------------------------------------------------ *)
(** ** package mocks: service.go, and package main *)

Module service.

(** An [http.Handler] as the mocked services use it: the response it
    records for a JSON payload sent to a path. *)
Definition Handler (A : Type) : Type := string -> A -> http.Response.

(** [func NewMockedService(handler http.Handler) *http.Client]: the client
    whose transport runs the handler on a recorder and returns what was
    recorded, with a nil error. *)
Definition NewMockedService {A} (handler : Handler A) : http.Client A :=
  fun url payload => inl (handler url payload).

End service.

Module main.

(** [var unimplementedHandler]: [http.Error(w, "not implemented", 501)],
    which writes the message and a newline. *)
Definition unimplementedHandler {A} : service.Handler A :=
  fun _ _ =>
    {| http.StatusCode := 501;
       http.Body := "not implemented" ++ String (ascii_of_nat 10) "" |}.

(** The two clients [main] hands to [api.Handler]. *)
Definition fulfillmentService : http.Client api.fulfillmentServiceFulfillArgs :=
  service.NewMockedService unimplementedHandler.
Definition chargeService : http.Client api.chargeServiceChargeArgs.t :=
  service.NewMockedService unimplementedHandler.

End main.

Module samples.

(** The order "test1" of the storage tests. *)
Definition order1 : storage.Order :=
  {| storage.ID := "test1";
     storage.CustomerEmail := "test@test";
     storage.LineItems := Some [fixtures.item "item 1" 1000 1; fixtures.item "item 2" 5000 10];
     storage.Status := storage.OrderStatusCharged |}.

(** The order "test2" of the storage tests. *)
Definition order2 : storage.Order :=
  {| storage.ID := "test2";
     storage.CustomerEmail := "test@test";
     storage.LineItems := Some [fixtures.item "item 3" 500 2; fixtures.item "item 4" 1000 1];
     storage.Status := storage.OrderStatusFulfilled |}.

Definition two_orders : storage.Instance := fixtures.instance_of [order1; order2].

(** A driver that works except for the one call named. *)
Definition failing_FindOne (e : error) : mongo.Faults :=
  {| mongo.FindOneErr := Some e; mongo.FindErr := None; mongo.DecodeErr := None;
     mongo.UpdateOneErr := None; mongo.InsertOneErr := None |}.
Definition failing_Decode (e : error) : mongo.Faults :=
  {| mongo.FindOneErr := None; mongo.FindErr := None; mongo.DecodeErr := Some e;
     mongo.UpdateOneErr := None; mongo.InsertOneErr := None |}.
Definition failing_UpdateOne (e : error) : mongo.Faults :=
  {| mongo.FindOneErr := None; mongo.FindErr := None; mongo.DecodeErr := None;
     mongo.UpdateOneErr := Some e; mongo.InsertOneErr := None |}.
Definition failing_InsertOne (e : error) : mongo.Faults :=
  {| mongo.FindOneErr := None; mongo.FindErr := None; mongo.DecodeErr := None;
     mongo.UpdateOneErr := None; mongo.InsertOneErr := Some e |}.

(** The body of the first case of [TestPostOrders]. *)
Definition valid_args : api.postOrderArgs :=
  {| api.CustomerEmail := "test@test";
     api.LineItems := Some [fixtures.item "item 1" 1000 1] |}.

(** POST /orders with a body that decodes to the given arguments. *)
Definition post_request (args : api.postOrderArgs) : api.Request :=
  fixtures.request "POST" ["orders"] (inl args) (inr (ErrOther "EOF")).

(** The context the route POST /orders/:id/charge gives [chargeOrder]. *)
Definition charge_context (id : string) : api.Context :=
  {| api.Req := fixtures.request "POST" ["orders"; id; "charge"]
                  (inr (ErrOther "EOF"))
                  (inl {| api.chargeOrderArgs.CardToken := "amex" |});
     api.Params := [("id", id)] |}.

(** The context the route GET /orders/:id gives [getOrder]. *)
Definition get_context (id : string) : api.Context :=
  {| api.Req := fixtures.request "GET" ["orders"; id]
                  (inr (ErrOther "EOF")) (inr (ErrOther "EOF"));
     api.Params := [("id", id)] |}.

(** gin's answer when no route matches. *)
Definition not_found : list api.Reply :=
  [ {| api.code := http.StatusNotFound; api.obj := api.plain "404 page not found" |} ].

End samples.

(* ------------------------------------------------------------------ *)
(** ** int64 arithmetic *)

Lemma wrap_in_range (z : Z) : int64.in_range (int64.wrap z).
Proof.
  unfold int64.in_range, int64.wrap, int64.min, int64.max.
  pose proof (Z.mod_pos_bound (z + 2 ^ 63) (2 ^ 64) ltac:(lia)). lia.
Qed.

Lemma wrap_small (z : Z) : int64.in_range z -> int64.wrap z = z.
Proof.
  unfold int64.in_range, int64.wrap, int64.min, int64.max. intros H.
  rewrite Z.mod_small by lia. lia.
Qed.

Lemma wrap_add_l (a b : Z) : int64.wrap (int64.wrap a + b) = int64.wrap (a + b).
Proof.
  unfold int64.wrap. f_equal.
  replace ((a + 2 ^ 63) mod 2 ^ 64 - 2 ^ 63 + b + 2 ^ 63)
    with ((a + 2 ^ 63) mod 2 ^ 64 + b) by lia.
  rewrite Zplus_mod_idemp_l. f_equal. lia.
Qed.

Lemma wrap_add_r (a b : Z) : int64.wrap (a + int64.wrap b) = int64.wrap (a + b).
Proof.
  rewrite (Z.add_comm a (int64.wrap b)), wrap_add_l. f_equal. lia.
Qed.

(** The loop of [TotalCents], started from any total. *)
Lemma TotalCents_loop (items : list storage.LineItem) :
  forall acc : Z,
    fold_left
      (fun total li =>
         int64.add total (int64.mul (storage.PriceCents li) (storage.Quantity li)))
      items (int64.wrap acc)
    = int64.wrap (acc + storage.exact_total items).
Proof.
  induction items as [|li items IH]; intros acc; simpl.
  - f_equal. lia.
  - set (pq := storage.PriceCents li * storage.Quantity li).
    change (int64.add (int64.wrap acc)
              (int64.mul (storage.PriceCents li) (storage.Quantity li)))
      with (int64.wrap (int64.wrap acc + int64.wrap pq)).
    rewrite IH, <- Z.add_assoc, wrap_add_l.
    replace (acc + (int64.wrap pq + storage.exact_total items))
      with (acc + storage.exact_total items + int64.wrap pq) by lia.
    rewrite wrap_add_r. f_equal. lia.
Qed.

(* ------------------------------------------------------------------ *)
(** ** Totals *)

(** C6, as stated, fails on the code: an order of four units at 2^62 cents
    has the exact signed sum 2^64, and [TotalCents] returns 0, because the
    total is an [int64]. *)
Lemma TotalCents_overflow_counterexample :
  storage.TotalCents fixtures.overflow_order = 0 /\
  storage.exact_total (elems (storage.LineItems fixtures.overflow_order)) = 2 ^ 64 /\
  storage.TotalCents fixtures.overflow_order
    <> storage.exact_total (elems (storage.LineItems fixtures.overflow_order)).
Proof. repeat split; vm_compute; congruence. Qed.

(** C6, amended: for every order, [TotalCents] is a function of the line
    items alone (nothing stored takes part), equal to the signed sum of
    price times quantity over all line items reduced to [int64] by
    two's-complement wrap-around; it is the exact signed sum whenever that
    sum fits an [int64]. *)
Theorem TotalCents_signed_sum (o : storage.Order) :
  let items := elems (storage.LineItems o) in
  storage.TotalCents o = int64.wrap (storage.exact_total items) /\
  (int64.in_range (storage.exact_total items) ->
   storage.TotalCents o = storage.exact_total items) /\
  (forall o' : storage.Order,
     storage.LineItems o' = storage.LineItems o ->
     storage.TotalCents o' = storage.TotalCents o).
Proof.
  intros items.
  assert (E : storage.TotalCents o = int64.wrap (storage.exact_total items)).
  { unfold storage.TotalCents. fold items.
    change 0 with (int64.wrap 0) at 1. now rewrite TotalCents_loop. }
  split; [exact E|split].
  - intros R. rewrite E. now apply wrap_small.
  - intros o' L. unfold storage.TotalCents. now rewrite L.
Qed.

Lemma TotalCents_signed_sum_witness :
  storage.TotalCents (fixtures.order 0 [fixtures.item "item 1" 100 1;
                                        fixtures.item "#1 customer discount" (-100) 1])
  = 0.
Proof.
  pose proof (TotalCents_signed_sum
                (fixtures.order 0 [fixtures.item "item 1" 100 1;
                                   fixtures.item "#1 customer discount" (-100) 1])) as H.
  destruct H as [_ [H _]]. rewrite H.
  - reflexivity.
  - unfold int64.in_range; vm_compute; split; discriminate.
Defined.

(* ------------------------------------------------------------------ *)
(** ** UUID strings *)

Lemma append_length (s t : string) :
  String.length (s ++ t) = (String.length s + String.length t)%nat.
Proof. induction s as [|a s IH]; simpl; [reflexivity|now rewrite IH]. Qed.

Lemma hex_Encode_length (bs : list Byte.byte) :
  String.length (uuid.hex_Encode bs) = (2 * List.length bs)%nat.
Proof. induction bs as [|b bs IH]; simpl; [reflexivity|rewrite IH; lia]. Qed.

Lemma uuid_String_nonempty (u : uuid.UUID) : uuid.String u <> "".
Proof.
  unfold uuid.String. intros E.
  apply (f_equal String.length) in E.
  rewrite append_length in E. simpl in E. lia.
Qed.

Lemma uuid_String_length (u : uuid.UUID) :
  List.length u = 16%nat -> String.length (uuid.String u) = 36%nat.
Proof.
  intros L. unfold uuid.String, uuid.sub.
  repeat rewrite ?append_length, ?hex_Encode_length, ?length_firstn, ?length_skipn.
  rewrite L. reflexivity.
Qed.

(* ------------------------------------------------------------------ *)
(** ** The driver's lookups *)

Lemma find_filter_id (id : string) (c : list storage.Order) :
  In id (map storage.ID c) ->
  exists o, find (storage.filter_id id) c = Some o /\ storage.ID o = id.
Proof.
  induction c as [|d c IH]; simpl; [tauto|].
  intros H. unfold storage.filter_id at 1.
  destruct (String.eqb_spec (storage.ID d) id) as [E|N].
  - now exists d.
  - destruct H as [H|H]; [contradiction|]. now apply IH.
Qed.

Lemma find_filter_id_None (id : string) (c : list storage.Order) :
  ~ In id (map storage.ID c) -> find (storage.filter_id id) c = None.
Proof.
  induction c as [|d c IH]; simpl; [reflexivity|].
  intros H. unfold storage.filter_id at 1.
  destruct (String.eqb_spec (storage.ID d) id) as [E|N]; [tauto|].
  apply IH. tauto.
Qed.




(* ------------------------------------------------------------------ *)
(** ** The store: listing *)



(* ------------------------------------------------------------------ *)
(** ** The store: insertion *)

(** C7, as stated, fails on the code: the id given to an order without one
    is the UUID that was drawn, and nothing compares it with the ids in the
    store.  When the store already holds an order under that very string
    (caller-supplied ids are free-form), [InsertOrder] returns an id that
    was in use, and two orders share it. *)
Lemma InsertOrder_used_id_counterexample :
  let id := "00000000-0000-4000-8000-000000000000" in
  let held := storage.with_ID (fixtures.order storage.OrderStatusCharged []) id in
  let i := fixtures.instance_of [held] in
  let new := storage.with_ID (fixtures.order storage.OrderStatusPending []) "" in
  storage.InsertOrder mongo.healthy fixtures.uuid0 i new
  = (fixtures.instance_of [held; storage.with_ID new id], (id, None)) /\
  In id (map storage.ID (storage.collection i)).
Proof. split; [reflexivity|now left]. Qed.

(** C7, amended: for every store state, insert of an order with an empty
    id, when the driver's [InsertOne] goes through, appends the order under
    the string of the UUID that [uuid.New] drew and returns that string,
    which is never empty (the code does not compare it with the ids in the
    store: it is previously unused exactly when the draw is); insert of an
    order whose non-empty id matches an existing order, when the lookup
    goes through, fails with [ErrOrderExists] and leaves the store as it
    was. *)
Theorem InsertOrder_assigns_or_rejects
    (f : mongo.Faults) (u : uuid.UUID) (i : storage.Instance) (order : storage.Order) :
  (storage.ID order = "" ->
   mongo.InsertOneErr f = None ->
   storage.InsertOrder f u i order =
   (storage.with_collection i
      (storage.collection i ++ [storage.with_ID order (uuid.String u)])%list,
    (uuid.String u, None)) /\
   uuid.String u <> "") /\
  (storage.ID order <> "" ->
   mongo.FindOneErr f = None ->
   In (storage.ID order) (map storage.ID (storage.collection i)) ->
   storage.InsertOrder f u i order = (i, ("", Some ErrOrderExists))).
Proof.
  split.
  - intros E I. split; [|apply uuid_String_nonempty].
    unfold storage.InsertOrder. rewrite E. simpl.
    unfold storage.insert_document, mongo.InsertOne. now rewrite I.
  - intros N F H. unfold storage.InsertOrder.
    destruct (String.eqb_spec (storage.ID order) "") as [E|_]; [contradiction|].
    unfold mongo.FindOne. rewrite F.
    destruct (find_filter_id _ _ H) as [o [Ho _]]. now rewrite Ho.
Qed.

(** The two inserts of [TestInsertOrder]: an order without an id, and the
    order "test" a second time. *)
Lemma InsertOrder_assigns_or_rejects_witness :
  let held := fixtures.order storage.OrderStatusCharged [fixtures.item "item 1" 1000 1] in
  let i := fixtures.instance_of [held] in
  let new := storage.with_ID held "" in
  fst (snd (storage.InsertOrder mongo.healthy fixtures.uuid0 i new))
  = "00000000-0000-4000-8000-000000000000" /\
  storage.InsertOrder mongo.healthy fixtures.uuid0 i held = (i, ("", Some ErrOrderExists)).
Proof.
  intros held i new. split.
  - destruct (InsertOrder_assigns_or_rejects mongo.healthy fixtures.uuid0 i new)
      as [A _].
    destruct (A eq_refl eq_refl) as [A1 _]. rewrite A1. reflexivity.
  - destruct (InsertOrder_assigns_or_rejects mongo.healthy fixtures.uuid0 i held)
      as [_ B].
    apply B; [discriminate|reflexivity|now left].
Defined.

(** C10: in [InsertOrder] with a non-empty caller-supplied id,
    [ErrOrderExists] comes out exactly when the lookup of that id completes
    and finds an order; when the lookup returns any error, be it "no
    documents" or a failure of the driver, the code goes on to [InsertOne],
    and with [InsertOne] going through the order is stored and its id
    returned, whether or not the store already holds that id. *)
Theorem InsertOrder_exists_only_when_lookup_succeeds
    (f : mongo.Faults) (u : uuid.UUID) (i : storage.Instance) (order : storage.Order) :
  storage.ID order <> "" ->
  let lookup := mongo.FindOne f (storage.collection i)
                  (storage.filter_id (storage.ID order)) in
  (snd (snd (storage.InsertOrder f u i order)) = Some ErrOrderExists <->
   exists found, lookup = inl found) /\
  (forall err, lookup = inr err ->
     storage.InsertOrder f u i order = storage.insert_document f i order /\
     (mongo.InsertOneErr f = None ->
      storage.InsertOrder f u i order =
      (storage.with_collection i (storage.collection i ++ [order])%list,
       (storage.ID order, None)))).
Proof.
  intros N lookup.
  assert (D : forall err, lookup = inr err ->
                storage.InsertOrder f u i order = storage.insert_document f i order).
  { intros err L. unfold storage.InsertOrder.
    destruct (String.eqb_spec (storage.ID order) "") as [E|_]; [contradiction|].
    fold lookup. now rewrite L. }
  split.
  - split.
    + intros H. destruct lookup as [found|err] eqn:L; [now exists found|].
      rewrite (D err eq_refl) in H.
      unfold storage.insert_document, mongo.InsertOne in H.
      destruct (mongo.InsertOneErr f); simpl in H; discriminate.
    + intros [found L]. unfold storage.InsertOrder.
      destruct (String.eqb_spec (storage.ID order) "") as [E|_]; [contradiction|].
      fold lookup. now rewrite L.
  - intros err L. split; [now apply (D err)|].
    intros I. rewrite (D err L).
    unfold storage.insert_document, mongo.InsertOne. now rewrite I.
Qed.

(** The store holds the order "test"; the lookup fails on the way to the
    server; the same order is stored a second time. *)
Lemma InsertOrder_exists_only_when_lookup_succeeds_witness :
  let held := fixtures.order storage.OrderStatusCharged [fixtures.item "item 1" 1000 1] in
  let i := fixtures.instance_of [held] in
  let f := {| mongo.FindOneErr := Some (ErrOther "context deadline exceeded");
              mongo.FindErr := None; mongo.DecodeErr := None;
              mongo.UpdateOneErr := None; mongo.InsertOneErr := None |} in
  storage.InsertOrder f fixtures.uuid0 i held
  = (fixtures.instance_of [held; held], ("test", None)).
Proof.
  intros held i f.
  destruct (InsertOrder_exists_only_when_lookup_succeeds f fixtures.uuid0 i held
              ltac:(discriminate)) as [_ B].
  destruct (B (ErrOther "context deadline exceeded") eq_refl) as [_ B2].
  rewrite (B2 eq_refl). reflexivity.
Defined.

(* ------------------------------------------------------------------ *)
(** ** Charging *)

Lemma app_one_neq {A} (l : list A) (a : A) : l <> (l ++ [a])%list.
Proof.
  intros E. apply (f_equal (@List.length A)) in E.
  rewrite length_app in E. simpl in E. lia.
Qed.

(** What [innerChargeOrder] does to the world: it records the request and
    touches nothing else. *)
Lemma innerChargeOrder_world {S} (chargeService : http.Client api.chargeServiceChargeArgs.t)
    (w : api.World S) (args : api.chargeServiceChargeArgs.t) :
  fst (api.innerChargeOrder chargeService w args)
  = {| api.stor := api.stor w; api.charged := (api.charged w ++ [args])%list |}.
Proof.
  unfold api.innerChargeOrder.
  destruct (chargeService "/charge" args) as [resp|err]; [|reflexivity].
  now destruct (negb _).
Qed.


(** The guard of [chargeOrder] lets an order through exactly when its
    status is [OrderStatusCharged]; every other order found is answered
    with a conflict, and neither the store nor the charge service is
    touched. *)
Lemma chargeOrder_guard (f : mongo.Faults) (u : uuid.UUID)
    (chargeService : http.Client api.chargeServiceChargeArgs.t)
    (c : api.Context) (w : api.World storage.Instance)
    (args : api.chargeOrderArgs.t) (order : storage.Order) :
  api.BindJSON_chargeOrderArgs (api.Req c) = inl args ->
  storage.GetOrder f (api.stor w) (gin.Param (api.Params c) "id") = (order, None) ->
  storage.Status order <> storage.OrderStatusCharged ->
  api.chargeOrder (SI := storage_Instance f u) chargeService c w
  = (w, api.JSON http.StatusConflict (api.H_error "order ineligible for charging")).
Proof.
  intros B G N. unfold api.chargeOrder. rewrite B. simpl. rewrite G.
  destruct (Z.eqb_spec (storage.Status order) storage.OrderStatusCharged) as [E|_];
    [contradiction|].
  now destruct w.
Qed.

(** C1 at the input of the first case of [TestChargeOrder]: a stored
    pending order of one item at 100 cents, the body {"cardToken":"amex"}.
    Whatever the charge service would answer, the handler answers 409: the
    charge service is not called, the order stays pending, no amount comes
    back. *)
Theorem chargeOrder_pending_order_refused
    (chargeService : http.Client api.chargeServiceChargeArgs.t) :
  let pending :=
    fixtures.order storage.OrderStatusPending [fixtures.item "item 1" 100 1] in
  storage.TotalCents pending = 100 /\
  api.ServeHTTP (SI := storage_Instance mongo.healthy fixtures.uuid0)
    chargeService fixtures.charge_request (fixtures.world_of [pending])
  = (fixtures.world_of [pending],
     api.JSON http.StatusConflict (api.H_error "order ineligible for charging")).
Proof. split; reflexivity. Qed.

(** C2 at the input of the second case of [TestChargeOrder]: a stored
    order that is already charged.  The handler posts a charge of 100 cents
    to the charge service, writes the status again and answers 200 with
    [chargedCents] 100.  A fulfilled order is refused with 409, as the
    claim says. *)
Theorem chargeOrder_charged_order_charged_again :
  let charged :=
    fixtures.order storage.OrderStatusCharged [fixtures.item "item 1" 100 1] in
  let fulfilled :=
    fixtures.order storage.OrderStatusFulfilled [fixtures.item "item 1" 100 1] in
  api.ServeHTTP (SI := storage_Instance mongo.healthy fixtures.uuid0)
    fixtures.charge_created fixtures.charge_request (fixtures.world_of [charged])
  = ({| api.stor := fixtures.instance_of [charged];
        api.charged := [ {| api.chargeServiceChargeArgs.CardToken := "amex";
                            api.chargeServiceChargeArgs.AmountCents := 100 |} ] |},
     api.JSON http.StatusOK (api.chargeOrderRes 100)) /\
  api.ServeHTTP (SI := storage_Instance mongo.healthy fixtures.uuid0)
    fixtures.charge_created fixtures.charge_request (fixtures.world_of [fulfilled])
  = (fixtures.world_of [fulfilled],
     api.JSON http.StatusConflict (api.H_error "order ineligible for charging")).
Proof. split; reflexivity. Qed.

(** C3 at the input of the fourth case of [TestChargeOrder]: a stored
    pending order of an item at 100 cents and a discount of -100.  The
    handler answers 409 and the order stays pending.  Behind the guard
    there is no test of the amount either: the same line items on an order
    the guard lets through are posted to the charge service with the
    amount 0. *)
Theorem chargeOrder_zero_total_pending_refused :
  let items := [fixtures.item "item 1" 100 1;
                fixtures.item "#1 customer discount" (-100) 1] in
  let pending := fixtures.order storage.OrderStatusPending items in
  let charged := fixtures.order storage.OrderStatusCharged items in
  storage.TotalCents pending = 0 /\
  api.ServeHTTP (SI := storage_Instance mongo.healthy fixtures.uuid0)
    fixtures.charge_created fixtures.charge_request (fixtures.world_of [pending])
  = (fixtures.world_of [pending],
     api.JSON http.StatusConflict (api.H_error "order ineligible for charging")) /\
  api.charged
    (fst (api.ServeHTTP (SI := storage_Instance mongo.healthy fixtures.uuid0)
            fixtures.charge_created fixtures.charge_request
            (fixtures.world_of [charged])))
  = [ {| api.chargeServiceChargeArgs.CardToken := "amex";
         api.chargeServiceChargeArgs.AmountCents := 0 |} ].
Proof. repeat split; reflexivity. Qed.



(* ------------------------------------------------------------------ *)
(** ** Creating orders *)

(** C5 at the input of the last case of [TestPostOrders]: one item at 1000
    cents and a discount of -10000.  The handler writes the 400 "an order's
    total cannot be less than 0" and, having no [return] there, goes on to
    [InsertOrder]: the order is stored under a new id and a second write,
    a 201 with the order, follows.  The client sees the 400. *)
Theorem postOrders_negative_total_inserted
    (chargeService : http.Client api.chargeServiceChargeArgs.t) (u : uuid.UUID) :
  let r := fixtures.request "POST" ["orders"]
             (inl fixtures.negative_args) (inr (ErrOther "EOF")) in
  let stored :=
    {| storage.ID := uuid.String u;
       storage.CustomerEmail := "test@test";
       storage.LineItems := api.LineItems fixtures.negative_args;
       storage.Status := storage.OrderStatusPending |} in
  let run := api.ServeHTTP (SI := storage_Instance mongo.healthy u)
               chargeService r (fixtures.world_of []) in
  storage.TotalCents stored = -9000 /\
  fst run = fixtures.world_of [stored] /\
  snd run = (api.JSON http.StatusBadRequest
               (api.H_error "an order's total cannot be less than 0")
             ++ api.JSON http.StatusCreated (api.postOrderRes stored))%list /\
  api.status (snd run) = http.StatusBadRequest.
Proof. repeat split; reflexivity. Qed.

(* ------------------------------------------------------------------ *)
(** ** Fulfilling *)

(** C8 on the code: no handler fulfils an order.  [Handler] registers four
    routes, none of them for fulfilment, and api.go ends on the note that
    the fulfil function is still to be written.  A request to fulfil the
    already fulfilled order "test", by the PUT /fulfill of the API
    reference or by a path in the style of the charge route, gets gin's
    404; nothing is called and nothing changes. *)
Theorem fulfill_request_not_found
    (chargeService : http.Client api.chargeServiceChargeArgs.t) :
  let fulfilled :=
    fixtures.order storage.OrderStatusFulfilled [fixtures.item "item 1" 100 1] in
  let w := fixtures.world_of [fulfilled] in
  let not_found :=
    [ {| api.code := http.StatusNotFound; api.obj := api.plain "404 page not found" |} ] in
  let serve method path :=
    api.ServeHTTP (SI := storage_Instance mongo.healthy fixtures.uuid0) chargeService
      (fixtures.request method path (inr (ErrOther "EOF")) (inr (ErrOther "EOF"))) w in
  serve "PUT" ["fulfill"] = (w, not_found) /\
  serve "PUT" ["orders"; "test"; "fulfill"] = (w, not_found) /\
  serve "POST" ["orders"; "test"; "fulfill"] = (w, not_found).
Proof. repeat split; reflexivity. Qed.

(* ------------------------------------------------------------------ *)
(** ** The store: lookups and round trips *)

Lemma find_app_last {A} (p : A -> bool) (l : list A) (a : A) :
  find p l = None -> p a = true -> find p (l ++ [a]) = Some a.
Proof.
  induction l as [|b l IH]; simpl; intros N T.
  - now rewrite T.
  - destruct (p b); [discriminate|now apply IH].
Qed.

Lemma filter_id_true (id : string) (o : storage.Order) :
  storage.filter_id id o = true <-> storage.ID o = id.
Proof. unfold storage.filter_id. apply String.eqb_eq. Qed.

(** X1: with the lookup going through, [GetOrder] returns a stored order
    that carries the requested id when the store holds one, and the zero
    order with [ErrOrderNotFound] when it holds none. *)
Theorem GetOrder_found_or_not_found
    (f : mongo.Faults) (i : storage.Instance) (id : string) :
  mongo.FindOneErr f = None ->
  (In id (map storage.ID (storage.collection i)) ->
   exists o, storage.GetOrder f i id = (o, None) /\
             In o (storage.collection i) /\ storage.ID o = id) /\
  (~ In id (map storage.ID (storage.collection i)) ->
   storage.GetOrder f i id = (storage.Order_zero, Some ErrOrderNotFound)).
Proof.
  intros F. unfold storage.GetOrder, mongo.FindOne. rewrite F. split; intros H.
  - destruct (find_filter_id _ _ H) as [o [Ho E]]. exists o. rewrite Ho.
    repeat split; [|exact E]. now apply find_some in Ho.
  - now rewrite (find_filter_id_None _ _ H).
Qed.

(** The lookups of [TestGetOrder]: the order that was stored, and an id
    that was not. *)
Lemma GetOrder_found_or_not_found_witness :
  (exists o, storage.GetOrder mongo.healthy samples.two_orders "test2" = (o, None) /\
             In o (storage.collection samples.two_orders) /\ storage.ID o = "test2") /\
  storage.GetOrder mongo.healthy samples.two_orders "not found"
  = (storage.Order_zero, Some ErrOrderNotFound).
Proof.
  split.
  - apply (GetOrder_found_or_not_found mongo.healthy samples.two_orders "test2" eq_refl).
    simpl. tauto.
  - apply (GetOrder_found_or_not_found mongo.healthy samples.two_orders "not found" eq_refl).
    simpl. intros [H|[H|[]]]; discriminate.
Defined.

(** X2: whenever [GetOrder] returns an error, the order it returns is the
    zero order; the error is [ErrOrderNotFound] when the driver's error is
    (or wraps) "no documents", and the driver's own error, unchanged,
    otherwise. *)
Theorem GetOrder_error_shape
    (f : mongo.Faults) (i : storage.Instance) (id : string) (err : error) :
  snd (storage.GetOrder f i id) = Some err ->
  fst (storage.GetOrder f i id) = storage.Order_zero /\
  exists cause,
    mongo.FindOne f (storage.collection i) (storage.filter_id id) = inr cause /\
    err = if errors_Is cause mongo_ErrNoDocuments then ErrOrderNotFound else cause.
Proof.
  unfold storage.GetOrder.
  destruct (mongo.FindOne f (storage.collection i) (storage.filter_id id))
    as [o|cause]; [discriminate|].
  destruct (errors_Is cause mongo_ErrNoDocuments) eqn:E; simpl; intros H;
    injection H as <-; (split; [reflexivity|]); exists cause; now rewrite E.
Qed.

Lemma GetOrder_error_shape_witness :
  fst (storage.GetOrder
         (samples.failing_FindOne (ErrOther "context canceled"))
         samples.two_orders "test1") = storage.Order_zero /\
  exists cause,
    mongo.FindOne (samples.failing_FindOne (ErrOther "context canceled"))
      (storage.collection samples.two_orders) (storage.filter_id "test1") = inr cause /\
    ErrOther "context canceled"
    = if errors_Is cause mongo_ErrNoDocuments then ErrOrderNotFound else cause.
Proof.
  apply (GetOrder_error_shape (samples.failing_FindOne (ErrOther "context canceled"))
           samples.two_orders "test1" (ErrOther "context canceled")).
  reflexivity.
Defined.

(** X3: insert, then get.  With the driver going through and the id (the
    caller's, or the string of the drawn UUID when the caller gave none)
    not yet in the store, [InsertOrder] returns that id and no error, and
    [GetOrder] of the returned id on the resulting store returns the order
    as it was inserted, with that id. *)
Theorem InsertOrder_then_GetOrder
    (f : mongo.Faults) (u : uuid.UUID) (i : storage.Instance) (order : storage.Order) :
  mongo.FindOneErr f = None ->
  mongo.InsertOneErr f = None ->
  let id := if String.eqb (storage.ID order) "" then uuid.String u else storage.ID order in
  ~ In id (map storage.ID (storage.collection i)) ->
  exists i',
    storage.InsertOrder f u i order = (i', (id, None)) /\
    storage.GetOrder f i' id = (storage.with_ID order id, None).
Proof.
  intros F I id N.
  exists (storage.with_collection i
            (storage.collection i ++ [storage.with_ID order id])%list).
  assert (G : storage.GetOrder f
                (storage.with_collection i
                   (storage.collection i ++ [storage.with_ID order id])%list) id
              = (storage.with_ID order id, None)).
  { unfold storage.GetOrder, mongo.FindOne. rewrite F. simpl.
    rewrite (find_app_last _ _ (storage.with_ID order id)); [reflexivity| |].
    - now apply find_filter_id_None.
    - now apply filter_id_true. }
  split; [|exact G].
  unfold storage.InsertOrder. subst id.
  destruct (String.eqb_spec (storage.ID order) "") as [E|E].
  - unfold storage.insert_document, mongo.InsertOne. now rewrite I.
  - unfold mongo.FindOne. rewrite F, (find_filter_id_None _ _ N).
    unfold storage.insert_document, mongo.InsertOne. rewrite I.
    now destruct order.
Qed.

(** The round trip of [TestInsertOrder]: an order without an id is stored
    next to "test1" and "test2" and read back under the id it was given. *)
Lemma InsertOrder_then_GetOrder_witness :
  let order := storage.with_ID samples.order1 "" in
  let id := "00000000-0000-4000-8000-000000000000" in
  exists i',
    storage.InsertOrder mongo.healthy fixtures.uuid0 samples.two_orders order
    = (i', (id, None)) /\
    storage.GetOrder mongo.healthy i' id = (storage.with_ID order id, None).
Proof.
  apply (InsertOrder_then_GetOrder mongo.healthy fixtures.uuid0 samples.two_orders
           (storage.with_ID samples.order1 "") eq_refl eq_refl).
  simpl. intros [H|[H|[]]]; discriminate.
Defined.

(* ------------------------------------------------------------------ *)
(** ** The store: status updates *)

Lemma existsb_find_none {A} (p : A -> bool) (l : list A) :
  existsb p l = false <-> find p l = None.
Proof.
  induction l as [|a l IH]; simpl; [tauto|].
  destruct (p a); simpl; [split; discriminate|exact IH].
Qed.

Lemma update_first_no_match {A} (p : A -> bool) (upd : A -> A) (l : list A) :
  find p l = None -> mongo.update_first p upd l = l.
Proof.
  induction l as [|a l IH]; simpl; [reflexivity|].
  destruct (p a); [discriminate|]. intros H. now rewrite IH.
Qed.

(** Looking up [id'] after the first order with [id] had its status set:
    the order found is the one found before, with the new status when the
    two ids are the same. *)
Lemma find_update_first (id id' : string) (status : storage.OrderStatus)
    (c : list storage.Order) :
  find (storage.filter_id id')
    (mongo.update_first (storage.filter_id id) (storage.set_status status) c)
  = if String.eqb id id'
    then option_map (storage.set_status status) (find (storage.filter_id id') c)
    else find (storage.filter_id id') c.
Proof.
  induction c as [|d c IH]; simpl.
  - now destruct (String.eqb id id').
  - unfold storage.filter_id in *.
    destruct (String.eqb_spec (storage.ID d) id) as [E|N]; simpl.
    + destruct (String.eqb_spec (storage.ID d) id') as [E'|N'].
      * destruct (String.eqb_spec id id') as [_|X]; [reflexivity|congruence].
      * destruct (String.eqb_spec id id') as [E'|_]; [congruence|reflexivity].
    + destruct (String.eqb_spec (storage.ID d) id') as [E'|N'].
      * destruct (String.eqb_spec id id'); [congruence|reflexivity].
      * exact IH.
Qed.

(** X4: whenever [SetOrderStatus] returns an error the store is what it was
    before; with the driver's update going through and no order under the
    id, the error is [ErrOrderNotFound]. *)
Theorem SetOrderStatus_error_leaves_store
    (f : mongo.Faults) (i : storage.Instance) (id : string) (status : storage.OrderStatus) :
  (snd (storage.SetOrderStatus f i id status) <> None ->
   fst (storage.SetOrderStatus f i id status) = i) /\
  (mongo.UpdateOneErr f = None ->
   ~ In id (map storage.ID (storage.collection i)) ->
   storage.SetOrderStatus f i id status = (i, Some ErrOrderNotFound)).
Proof.
  unfold storage.SetOrderStatus, mongo.UpdateOne. split.
  - destruct (mongo.UpdateOneErr f) as [e|]; [intros _; now destruct i|].
    destruct (existsb (storage.filter_id id) (storage.collection i)) eqn:E; simpl.
    + intros H. now contradiction H.
    + intros _. apply existsb_find_none in E.
      rewrite update_first_no_match by exact E. now destruct i.
  - intros U N. rewrite U.
    pose proof (find_filter_id_None _ _ N) as E.
    rewrite update_first_no_match by exact E.
    apply existsb_find_none in E. rewrite E. simpl. now destruct i.
Qed.

(** The last step of [TestSetOrderStatus]: an id that is not stored. *)
Lemma SetOrderStatus_error_leaves_store_witness :
  fst (storage.SetOrderStatus (samples.failing_UpdateOne (ErrOther "context canceled"))
         samples.two_orders "test1" storage.OrderStatusFulfilled)
  = samples.two_orders /\
  storage.SetOrderStatus mongo.healthy samples.two_orders "not found"
    storage.OrderStatusFulfilled
  = (samples.two_orders, Some ErrOrderNotFound).
Proof.
  split.
  - apply (SetOrderStatus_error_leaves_store
             (samples.failing_UpdateOne (ErrOther "context canceled"))
             samples.two_orders "test1" storage.OrderStatusFulfilled).
    simpl. discriminate.
  - apply (SetOrderStatus_error_leaves_store mongo.healthy samples.two_orders
             "not found" storage.OrderStatusFulfilled); [reflexivity|].
    simpl. intros [H|[H|[]]]; discriminate.
Defined.

(** X5: set, then get.  With the driver going through and an order [o]
    found under the id, [SetOrderStatus] succeeds for every status value
    (no transition is checked: any [int64], a step back included), and
    [GetOrder] of that id then returns [o] with the new status and every
    other field as it was. *)
Theorem SetOrderStatus_then_GetOrder
    (f : mongo.Faults) (i : storage.Instance) (id : string)
    (status : storage.OrderStatus) (o : storage.Order) :
  mongo.FindOneErr f = None ->
  mongo.UpdateOneErr f = None ->
  storage.GetOrder f i id = (o, None) ->
  snd (storage.SetOrderStatus f i id status) = None /\
  storage.GetOrder f (fst (storage.SetOrderStatus f i id status)) id
  = ({| storage.ID := storage.ID o;
        storage.CustomerEmail := storage.CustomerEmail o;
        storage.LineItems := storage.LineItems o;
        storage.Status := status |}, None).
Proof.
  intros F U G.
  unfold storage.GetOrder, mongo.FindOne in G. rewrite F in G.
  destruct (find (storage.filter_id id) (storage.collection i)) as [o'|] eqn:E;
    [|discriminate].
  injection G as ->.
  unfold storage.SetOrderStatus, mongo.UpdateOne. rewrite U.
  assert (X : existsb (storage.filter_id id) (storage.collection i) = true).
  { destruct (existsb _ _) eqn:X; [reflexivity|].
    apply existsb_find_none in X. congruence. }
  rewrite X. simpl. split; [reflexivity|].
  unfold storage.GetOrder, mongo.FindOne. rewrite F. simpl.
  now rewrite find_update_first, String.eqb_refl, E.
Qed.

(** [TestSetOrderStatus], and a step back from fulfilled to pending. *)
Lemma SetOrderStatus_then_GetOrder_witness :
  snd (storage.SetOrderStatus mongo.healthy samples.two_orders "test2"
         storage.OrderStatusPending) = None /\
  storage.GetOrder mongo.healthy
    (fst (storage.SetOrderStatus mongo.healthy samples.two_orders "test2"
            storage.OrderStatusPending)) "test2"
  = ({| storage.ID := "test2";
        storage.CustomerEmail := "test@test";
        storage.LineItems := storage.LineItems samples.order2;
        storage.Status := storage.OrderStatusPending |}, None).
Proof.
  apply (SetOrderStatus_then_GetOrder mongo.healthy samples.two_orders "test2"
           storage.OrderStatusPending samples.order2); reflexivity.
Defined.

(** X6: [SetOrderStatus] on one id never shows in a lookup of another id:
    whatever the driver does, [GetOrder] of a different id returns after
    the call what it returned before. *)
Theorem SetOrderStatus_other_ids_untouched
    (f : mongo.Faults) (i : storage.Instance) (id id' : string)
    (status : storage.OrderStatus) :
  id <> id' ->
  storage.GetOrder f (fst (storage.SetOrderStatus f i id status)) id'
  = storage.GetOrder f i id'.
Proof.
  intros N. unfold storage.SetOrderStatus, mongo.UpdateOne.
  destruct (mongo.UpdateOneErr f) as [e|]; [now destruct i|].
  assert (E : storage.GetOrder f
                (storage.with_collection i
                   (mongo.update_first (storage.filter_id id)
                      (storage.set_status status) (storage.collection i))) id'
              = storage.GetOrder f i id').
  { unfold storage.GetOrder, mongo.FindOne. simpl. rewrite find_update_first.
    now destruct (String.eqb_spec id id'). }
  now destruct (_ =? 0)%Z.
Qed.

Lemma SetOrderStatus_other_ids_untouched_witness :
  storage.GetOrder mongo.healthy
    (fst (storage.SetOrderStatus mongo.healthy samples.two_orders "test1"
            storage.OrderStatusFulfilled)) "test2"
  = storage.GetOrder mongo.healthy samples.two_orders "test2".
Proof.
  apply (SetOrderStatus_other_ids_untouched mongo.healthy samples.two_orders
           "test1" "test2" storage.OrderStatusFulfilled).
  discriminate.
Defined.

(* ------------------------------------------------------------------ *)
(** ** The store: listing by status, and what insertion changes *)



Lemma decode_all_error (f : mongo.Faults) (cursor : list storage.Order) :
  forall orders : slice storage.Order,
    snd (storage.decode_all f cursor orders) <> None ->
    fst (storage.decode_all f cursor orders) = None.
Proof.
  induction cursor as [|doc rest IH]; intros orders; simpl.
  - intros H. now contradiction H.
  - destruct (mongo.Decode f doc) as [order|err]; [apply IH|reflexivity].
Qed.

(** X8: whenever [GetOrders] returns an error the slice it returns is nil:
    the orders decoded before a failure are not handed out. *)
Theorem GetOrders_error_returns_nil
    (f : mongo.Faults) (i : storage.Instance) (status : storage.OrderStatus) :
  snd (storage.GetOrders f i status) <> None ->
  fst (storage.GetOrders f i status) = None.
Proof.
  unfold storage.GetOrders.
  destruct (mongo.Find f (storage.collection i) _) as [cursor|err].
  - apply decode_all_error.
  - now destruct (errors_Is err mongo_ErrNoDocuments).
Qed.

Lemma GetOrders_error_returns_nil_witness :
  fst (storage.GetOrders (samples.failing_Decode (ErrOther "cannot decode"))
         samples.two_orders (-1)) = None.
Proof.
  apply (GetOrders_error_returns_nil (samples.failing_Decode (ErrOther "cannot decode"))
           samples.two_orders (-1)).
  simpl. discriminate.
Defined.

(** X9: what [InsertOrder] does to the store, whatever the driver does and
    whichever UUID is drawn.  Either it returns no error and a non-empty
    id, and the store is the old one followed by the order under that id;
    or it returns an error and the empty id, and the store is unchanged.
    No stored order is ever changed or removed. *)
Theorem InsertOrder_appends_or_leaves
    (f : mongo.Faults) (u : uuid.UUID) (i : storage.Instance) (order : storage.Order) :
  let i' := fst (storage.InsertOrder f u i order) in
  let id := fst (snd (storage.InsertOrder f u i order)) in
  let err := snd (snd (storage.InsertOrder f u i order)) in
  (err = None /\ id <> "" /\
   i' = storage.with_collection i
          (storage.collection i ++ [storage.with_ID order id])%list) \/
  (err <> None /\ id = "" /\ i' = i).
Proof.
  assert (D : forall o, storage.ID o <> "" ->
    let r := storage.insert_document f i o in
    (snd (snd r) = None /\ fst (snd r) = storage.ID o /\
     fst r = storage.with_collection i (storage.collection i ++ [o])%list) \/
    (snd (snd r) <> None /\ fst (snd r) = "" /\ fst r = i)).
  { intros o _. unfold storage.insert_document, mongo.InsertOne.
    destruct (mongo.InsertOneErr f) as [e|]; simpl.
    - right. repeat split; [discriminate|now destruct i].
    - left. repeat split. }
  unfold storage.InsertOrder.
  destruct (String.eqb_spec (storage.ID order) "") as [E|N].
  - destruct (D (storage.with_ID order (uuid.String u)) (uuid_String_nonempty u))
      as [[A [B C]]|[A [B C]]]; simpl in *.
    + left. rewrite B. repeat split; [exact A|apply uuid_String_nonempty|exact C].
    + right. now repeat split.
  - destruct (mongo.FindOne f (storage.collection i) _) as [found|e]; simpl.
    + right. repeat split. discriminate.
    + destruct (D order N) as [[A [B C]]|[A [B C]]]; simpl in *.
      * left. rewrite B. repeat split; [exact A|exact N|].
        rewrite C. now destruct order.
      * right. now repeat split.
Qed.

Lemma NoDup_app_one {A} (l : list A) (a : A) : NoDup l -> ~ In a l -> NoDup (l ++ [a]).
Proof.
  induction 1 as [|b l Hb N IH]; simpl; intros H.
  - constructor; [intros []|constructor].
  - constructor.
    + rewrite in_app_iff. simpl. intros [X|[X|[]]]; [now apply Hb|subst; tauto].
    + apply IH. tauto.
Qed.

(** X10: the ids of the store stay pairwise distinct under [InsertOrder]
    as long as the lookup goes through and, for an order without an id, the
    UUID drawn is not already an id of the store. *)
Theorem InsertOrder_keeps_ids_distinct
    (f : mongo.Faults) (u : uuid.UUID) (i : storage.Instance) (order : storage.Order) :
  NoDup (map storage.ID (storage.collection i)) ->
  mongo.FindOneErr f = None ->
  (storage.ID order = "" -> ~ In (uuid.String u) (map storage.ID (storage.collection i))) ->
  NoDup (map storage.ID (storage.collection (fst (storage.InsertOrder f u i order)))).
Proof.
  intros N F U.
  assert (D : forall o, ~ In (storage.ID o) (map storage.ID (storage.collection i)) ->
    NoDup (map storage.ID (storage.collection (fst (storage.insert_document f i o))))).
  { intros o H. unfold storage.insert_document, mongo.InsertOne.
    destruct (mongo.InsertOneErr f) as [e|]; simpl; [exact N|].
    rewrite map_app. simpl. now apply NoDup_app_one. }
  unfold storage.InsertOrder.
  destruct (String.eqb_spec (storage.ID order) "") as [E|E].
  - apply D. simpl. now apply U.
  - unfold mongo.FindOne. rewrite F.
    destruct (find (storage.filter_id (storage.ID order)) (storage.collection i))
      as [found|] eqn:L; [exact N|].
    apply D. intros H. destruct (find_filter_id _ _ H) as [o [Ho _]]. congruence.
Qed.

(** The first two inserts of [TestInsertOrder]: "test1" is stored, and the
    second insert of "test1" does not add a second order under that id. *)
Lemma InsertOrder_keeps_ids_distinct_witness :
  NoDup (map storage.ID
           (storage.collection
              (fst (storage.InsertOrder mongo.healthy fixtures.uuid0
                      samples.two_orders samples.order1)))).
Proof.
  apply (InsertOrder_keeps_ids_distinct mongo.healthy fixtures.uuid0
           samples.two_orders samples.order1).
  - simpl. repeat constructor; simpl; intuition discriminate.
  - reflexivity.
  - discriminate.
Defined.

(* ------------------------------------------------------------------ *)
(** ** Totals and the order of the line items *)

Lemma exact_total_Permutation (l l' : list storage.LineItem) :
  Permutation l l' -> storage.exact_total l = storage.exact_total l'.
Proof. induction 1; simpl; lia. Qed.

Lemma exact_total_app (l l' : list storage.LineItem) :
  storage.exact_total (l ++ l') = storage.exact_total l + storage.exact_total l'.
Proof. induction l as [|a l IH]; simpl; lia. Qed.

Lemma TotalCents_wrap (o : storage.Order) :
  storage.TotalCents o = int64.wrap (storage.exact_total (elems (storage.LineItems o))).
Proof.
  unfold storage.TotalCents. change 0 with (int64.wrap 0) at 1.
  now rewrite TotalCents_loop.
Qed.

(** X11: [TotalCents] does not depend on the order of the line items, not
    even when the running total overflows on the way: two orders whose line
    items are a rearrangement of each other have the same total. *)
Theorem TotalCents_Permutation (o o' : storage.Order) :
  Permutation (elems (storage.LineItems o)) (elems (storage.LineItems o')) ->
  storage.TotalCents o = storage.TotalCents o'.
Proof.
  intros P. rewrite !TotalCents_wrap. f_equal. now apply exact_total_Permutation.
Qed.

(** The discount first, or the item first. *)
Lemma TotalCents_Permutation_witness :
  storage.TotalCents
    (fixtures.order 0 [fixtures.item "huge discount" (-10000) 1; fixtures.item "item 1" 1000 1])
  = storage.TotalCents
      (fixtures.order 0 [fixtures.item "item 1" 1000 1; fixtures.item "huge discount" (-10000) 1]).
Proof.
  apply (TotalCents_Permutation
           (fixtures.order 0 [fixtures.item "huge discount" (-10000) 1;
                              fixtures.item "item 1" 1000 1])
           (fixtures.order 0 [fixtures.item "item 1" 1000 1;
                              fixtures.item "huge discount" (-10000) 1])).
  simpl. apply perm_swap.
Defined.

(** X12: the total of an order whose line items are those of two orders,
    one after the other, is the [int64] sum of the two totals; an order
    without line items (a nil or an empty slice) has the total 0. *)
Theorem TotalCents_concatenation (o1 o2 o : storage.Order) :
  elems (storage.LineItems o)
  = (elems (storage.LineItems o1) ++ elems (storage.LineItems o2))%list ->
  storage.TotalCents o = int64.add (storage.TotalCents o1) (storage.TotalCents o2) /\
  (elems (storage.LineItems o1) = [] -> storage.TotalCents o1 = 0).
Proof.
  intros E. split.
  - rewrite !TotalCents_wrap, E, exact_total_app. unfold int64.add.
    now rewrite wrap_add_l, wrap_add_r.
  - intros N. unfold storage.TotalCents. now rewrite N.
Qed.

Lemma TotalCents_concatenation_witness :
  storage.TotalCents samples.order1
  = int64.add (storage.TotalCents (fixtures.order 0 [fixtures.item "item 1" 1000 1]))
              (storage.TotalCents (fixtures.order 0 [fixtures.item "item 2" 5000 10])).
Proof.
  apply (TotalCents_concatenation
           (fixtures.order 0 [fixtures.item "item 1" 1000 1])
           (fixtures.order 0 [fixtures.item "item 2" 5000 10])
           samples.order1).
  reflexivity.
Defined.

(* ------------------------------------------------------------------ *)
(** ** The handlers, over any implementation of the storage interface *)

(** X13: [getOrders] answers 400 exactly when the [status] query is none
    of "pending", "charged", "fulfilled" and the empty string (the match is
    exact: another spelling, such as "Pending", is refused); in that case
    the storage is not consulted and nothing changes. *)
Theorem getOrders_bad_request_iff {S : Type} {SI : mocks.StorageInstance S}
    (c : api.Context) (w : api.World S) :
  let q := api.Query (api.Req c) "status" in
  (api.status (snd (api.getOrders c w)) = http.StatusBadRequest <->
   q <> "pending" /\ q <> "charged" /\ q <> "fulfilled" /\ q <> "") /\
  (api.status (snd (api.getOrders c w)) = http.StatusBadRequest ->
   api.getOrders c w
   = (w, api.JSON http.StatusBadRequest (api.H_error "unknown value for status: %v"))).
Proof.
  intros q. unfold api.getOrders, api.status_of_query. fold q.
  assert (R : forall st : storage.OrderStatus,
    api.status
      (snd (let '(s, (orders, err)) := mocks.GetOrders (api.stor w) st in
            let w0 := api.with_stor w s in
            match err with
            | Some err =>
                (w0, api.JSON http.StatusInternalServerError
                       (api.H_error ("error getting orders: " ++ Error err)))
            | None =>
                (w0, api.JSON http.StatusOK
                       (api.getOrdersRes
                          match orders with
                          | None => Some []
                          | Some _ => orders
                          end))
            end)) <> http.StatusBadRequest).
  { intros st. destruct (mocks.GetOrders (api.stor w) st) as [s [orders [e|]]];
      simpl; discriminate. }
  destruct (String.eqb_spec q "pending") as [E1|N1].
  { split; [split|]; intros H; [now apply R in H|tauto|now apply R in H]. }
  destruct (String.eqb_spec q "charged") as [E2|N2].
  { split; [split|]; intros H; [now apply R in H|tauto|now apply R in H]. }
  destruct (String.eqb_spec q "fulfilled") as [E3|N3].
  { split; [split|]; intros H; [now apply R in H|tauto|now apply R in H]. }
  destruct (String.eqb_spec q "") as [E4|N4].
  { split; [split|]; intros H; [now apply R in H|tauto|now apply R in H]. }
  simpl. tauto.
Qed.

(** X14: [postOrders] answers a single 400 and calls no storage method,
    so that nothing is stored, when the body does not decode, when the
    e-mail address has no "@", or when there is no line item (a nil or an
    empty [lineItems]). *)
Theorem postOrders_rejects_before_storage {S : Type} {SI : mocks.StorageInstance S}
    (c : api.Context) (w : api.World S) :
  match api.BindJSON_postOrderArgs (api.Req c) with
  | inr _ => True
  | inl args =>
      strings_Contains (api.CustomerEmail args) "@" = false \/
      elems (api.LineItems args) = []
  end ->
  fst (api.postOrders c w) = w /\
  exists msg, snd (api.postOrders c w) = api.JSON http.StatusBadRequest (api.H_error msg).
Proof.
  unfold api.postOrders.
  destruct (api.BindJSON_postOrderArgs (api.Req c)) as [args|e]; simpl.
  - intros [E|E].
    + rewrite E. simpl. eauto.
    + destruct (negb _); simpl; [eauto|].
      unfold len. rewrite E. simpl. eauto.
  - eauto.
Qed.

(** The "invalid email" and "no line items" cases of [TestPostOrders]. *)
Lemma postOrders_rejects_before_storage_witness :
  let c email items :=
    {| api.Req := samples.post_request
                    {| api.CustomerEmail := email; api.LineItems := items |};
       api.Params := [] |} in
  fst (api.postOrders (SI := storage_Instance mongo.healthy fixtures.uuid0)
         (c "invalid" (Some [fixtures.item "item 1" 1000 1])) (fixtures.world_of []))
  = fixtures.world_of [] /\
  fst (api.postOrders (SI := storage_Instance mongo.healthy fixtures.uuid0)
         (c "test@test" None) (fixtures.world_of []))
  = fixtures.world_of [].
Proof.
  split.
  - apply (postOrders_rejects_before_storage
             (SI := storage_Instance mongo.healthy fixtures.uuid0)
             {| api.Req := samples.post_request
                             {| api.CustomerEmail := "invalid";
                                api.LineItems := Some [fixtures.item "item 1" 1000 1] |};
                api.Params := [] |} (fixtures.world_of [])).
    simpl. now left.
  - apply (postOrders_rejects_before_storage
             (SI := storage_Instance mongo.healthy fixtures.uuid0)
             {| api.Req := samples.post_request
                             {| api.CustomerEmail := "test@test"; api.LineItems := None |};
                api.Params := [] |} (fixtures.world_of [])).
    simpl. now right.
Defined.

(** X15: [innerChargeOrder] returns nil exactly when the charge service
    answered and the status of the answer is 201; every other status, 200
    included, and every failure to get an answer is an error.  Either way
    the request is on record and the storage is not touched. *)
Theorem innerChargeOrder_nil_iff_created {S : Type}
    (chargeService : http.Client api.chargeServiceChargeArgs.t)
    (w : api.World S) (args : api.chargeServiceChargeArgs.t) :
  (snd (api.innerChargeOrder chargeService w args) = None <->
   exists resp, chargeService "/charge" args = inl resp /\
                http.StatusCode resp = http.StatusCreated) /\
  fst (api.innerChargeOrder chargeService w args)
  = {| api.stor := api.stor w; api.charged := (api.charged w ++ [args])%list |}.
Proof.
  split; [|apply innerChargeOrder_world].
  unfold api.innerChargeOrder.
  destruct (chargeService "/charge" args) as [resp|err]; simpl.
  - destruct (Z.eqb_spec (http.StatusCode resp) http.StatusCreated) as [E|N]; simpl.
    + split; [intros _; now exists resp|reflexivity].
    + split; [discriminate|]. intros [resp' [X Y]]. injection X as <-. contradiction.
  - split; [discriminate|]. intros [resp [X _]]. discriminate.
Qed.

(* ------------------------------------------------------------------ *)
(** ** The handlers on the stored orders *)

Lemma with_stor_same {S} (w : api.World S) : api.with_stor w (api.stor w) = w.
Proof. now destruct w. Qed.

(** X16: the two reading handlers change nothing: whatever the driver
    does, [getOrder] and [getOrders] leave the store and the record of the
    charge service as they found them. *)
Theorem reading_handlers_change_nothing
    (f : mongo.Faults) (u : uuid.UUID) (c : api.Context)
    (w : api.World storage.Instance) :
  fst (api.getOrder (SI := storage_Instance f u) c w) = w /\
  fst (api.getOrders (SI := storage_Instance f u) c w) = w.
Proof.
  split.
  - unfold api.getOrder. simpl. rewrite with_stor_same.
    destruct (storage.GetOrder f (api.stor w) _) as [order [e|]]; [|reflexivity].
    now destruct (errors_Is e ErrOrderNotFound).
  - unfold api.getOrders.
    destruct (api.status_of_query _) as [st|]; [|reflexivity].
    simpl. rewrite with_stor_same.
    now destruct (storage.GetOrders f (api.stor w) st) as [orders [e|]].
Qed.

(** X17: with the lookup going through, [getOrder] answers 200 with a
    stored order that carries the id of the path when the store holds one,
    and 404 "not found" when it holds none. *)
Theorem getOrder_ok_or_not_found
    (f : mongo.Faults) (u : uuid.UUID) (c : api.Context)
    (w : api.World storage.Instance) :
  mongo.FindOneErr f = None ->
  let id := gin.Param (api.Params c) "id" in
  let ids := map storage.ID (storage.collection (api.stor w)) in
  (In id ids ->
   exists o, In o (storage.collection (api.stor w)) /\ storage.ID o = id /\
             api.getOrder (SI := storage_Instance f u) c w
             = (w, api.JSON http.StatusOK (api.getOrderRes o))) /\
  (~ In id ids ->
   api.getOrder (SI := storage_Instance f u) c w
   = (w, api.JSON http.StatusNotFound (api.H_error "not found"))).
Proof.
  intros F id ids. unfold api.getOrder. simpl. fold id. rewrite with_stor_same.
  unfold storage.GetOrder, mongo.FindOne. rewrite F. split; intros H.
  - destruct (find_filter_id _ _ H) as [o [Ho E]]. exists o. rewrite Ho.
    repeat split; [|exact E]. now apply find_some in Ho.
  - now rewrite (find_filter_id_None _ _ H).
Qed.

(** The two cases of the api's [TestGetOrder], on the stored orders. *)
Lemma getOrder_ok_or_not_found_witness :
  let w := {| api.stor := samples.two_orders; api.charged := [] |} in
  (exists o, In o (storage.collection samples.two_orders) /\ storage.ID o = "test1" /\
             api.getOrder (SI := storage_Instance mongo.healthy fixtures.uuid0)
               (samples.get_context "test1") w
             = (w, api.JSON http.StatusOK (api.getOrderRes o))) /\
  api.getOrder (SI := storage_Instance mongo.healthy fixtures.uuid0)
    (samples.get_context "notfound") w
  = (w, api.JSON http.StatusNotFound (api.H_error "not found")).
Proof.
  split.
  - apply (getOrder_ok_or_not_found mongo.healthy fixtures.uuid0
             (samples.get_context "test1")
             {| api.stor := samples.two_orders; api.charged := [] |} eq_refl).
    simpl. tauto.
  - apply (getOrder_ok_or_not_found mongo.healthy fixtures.uuid0
             (samples.get_context "notfound")
             {| api.stor := samples.two_orders; api.charged := [] |} eq_refl).
    simpl. intros [H|[H|[]]]; discriminate.
Defined.

(** X18: whatever the request, the driver and the UUID, an order that
    [postOrders] stores is pending and stored under the string of the drawn
    UUID, with the e-mail address and the line items of the body: the
    caller chooses neither id nor status.  As the id handed to
    [InsertOrder] is always empty, [ErrOrderExists] cannot come back, and
    the answer is never 409. *)
Theorem postOrders_stores_pending_under_uuid
    (f : mongo.Faults) (u : uuid.UUID) (c : api.Context)
    (w : api.World storage.Instance) :
  let run := api.postOrders (SI := storage_Instance f u) c w in
  api.status (snd run) <> http.StatusConflict /\
  api.charged (fst run) = api.charged w /\
  (api.stor (fst run) = api.stor w \/
   exists args,
     api.BindJSON_postOrderArgs (api.Req c) = inl args /\
     api.stor (fst run)
     = storage.with_collection (api.stor w)
         (storage.collection (api.stor w) ++
          [ {| storage.ID := uuid.String u;
               storage.CustomerEmail := api.CustomerEmail args;
               storage.LineItems := api.LineItems args;
               storage.Status := storage.OrderStatusPending |} ])%list).
Proof.
  destruct w as [[db docs] ch]. unfold api.postOrders.
  destruct (api.BindJSON_postOrderArgs (api.Req c)) as [args|e];
    [|simpl; repeat split; [discriminate|now left]].
  destruct (negb _); [simpl; repeat split; [discriminate|now left]|].
  destruct (len (api.LineItems args) <? 1)%Z;
    [simpl; repeat split; [discriminate|now left]|].
  simpl. unfold storage.InsertOrder, storage.insert_document, mongo.InsertOne. simpl.
  destruct (mongo.InsertOneErr f) as [e|]; simpl.
  - destruct (storage.TotalCents _ <? 0)%Z; simpl;
      (repeat split; [discriminate|now left]).
  - destruct (storage.TotalCents _ <? 0)%Z; simpl;
      (repeat split; [discriminate|]); right; now exists args.
Qed.

(** X19: create, then read, through the router.  A POST /orders whose body
    decodes, with an "@" in the e-mail address, at least one line item and
    a total that is not negative, is answered, when the driver goes through
    and the drawn UUID is not yet an id of the store, 201 with the order:
    pending, under the string of the UUID.  A GET /orders/<that id> on the
    resulting store is then answered 200 with the same order. *)
Theorem created_order_can_be_read
    (f : mongo.Faults) (u : uuid.UUID)
    (chargeService : http.Client api.chargeServiceChargeArgs.t)
    (r : api.Request) (w : api.World storage.Instance) (args : api.postOrderArgs) :
  api.Method r = "POST" ->
  api.Path r = ["orders"] ->
  api.BindJSON_postOrderArgs r = inl args ->
  strings_Contains (api.CustomerEmail args) "@" = true ->
  elems (api.LineItems args) <> [] ->
  let o := {| storage.ID := uuid.String u;
              storage.CustomerEmail := api.CustomerEmail args;
              storage.LineItems := api.LineItems args;
              storage.Status := storage.OrderStatusPending |} in
  (0 <= storage.TotalCents o)%Z ->
  mongo.FindOneErr f = None ->
  mongo.InsertOneErr f = None ->
  ~ In (uuid.String u) (map storage.ID (storage.collection (api.stor w))) ->
  exists w',
    api.ServeHTTP (SI := storage_Instance f u) chargeService r w
    = (w', api.JSON http.StatusCreated (api.postOrderRes o)) /\
    forall r', api.Method r' = "GET" ->
               api.Path r' = ["orders"; uuid.String u] ->
               api.ServeHTTP (SI := storage_Instance f u) chargeService r' w'
               = (w', api.JSON http.StatusOK (api.getOrderRes o)).
Proof.
  intros M P B E L o T F I N.
  exists {| api.stor := storage.with_collection (api.stor w)
                          (storage.collection (api.stor w) ++ [o])%list;
            api.charged := api.charged w |}.
  split.
  - unfold api.ServeHTTP, api.routes, api.dispatch. rewrite M, P. simpl.
    unfold api.postOrders. simpl. rewrite B, E. simpl.
    assert (X : (len (api.LineItems args) <? 1)%Z = false).
    { apply Z.ltb_ge. unfold len. destruct (elems (api.LineItems args)); [contradiction|].
      simpl List.length. lia. }
    rewrite X.
    change (storage.TotalCents
              {| storage.ID := ""; storage.CustomerEmail := api.CustomerEmail args;
                 storage.LineItems := api.LineItems args;
                 storage.Status := storage.OrderStatusPending |})
      with (storage.TotalCents o).
    assert (Y : (storage.TotalCents o <? 0)%Z = false) by now apply Z.ltb_ge.
    rewrite Y. simpl.
    unfold storage.InsertOrder, storage.insert_document, mongo.InsertOne. simpl.
    rewrite I. reflexivity.
  - intros r' M' P'.
    unfold api.ServeHTTP, api.routes, api.dispatch. rewrite M', P'. simpl.
    destruct (String.eqb_spec (uuid.String u) "") as [Z|_];
      [now apply uuid_String_nonempty in Z|].
    simpl. unfold api.getOrder. simpl.
    unfold storage.GetOrder, mongo.FindOne. rewrite F. simpl.
    rewrite (find_app_last _ _ o).
    + reflexivity.
    + now apply find_filter_id_None.
    + now apply filter_id_true.
Qed.

(** The first case of [TestPostOrders], on the store of the storage tests. *)
Lemma created_order_can_be_read_witness :
  let w := {| api.stor := samples.two_orders; api.charged := [] |} in
  let o := {| storage.ID := uuid.String fixtures.uuid0;
              storage.CustomerEmail := "test@test";
              storage.LineItems := Some [fixtures.item "item 1" 1000 1];
              storage.Status := storage.OrderStatusPending |} in
  exists w',
    api.ServeHTTP (SI := storage_Instance mongo.healthy fixtures.uuid0)
      fixtures.charge_created (samples.post_request samples.valid_args) w
    = (w', api.JSON http.StatusCreated (api.postOrderRes o)) /\
    forall r', api.Method r' = "GET" ->
               api.Path r' = ["orders"; uuid.String fixtures.uuid0] ->
               api.ServeHTTP (SI := storage_Instance mongo.healthy fixtures.uuid0)
                 fixtures.charge_created r' w'
               = (w', api.JSON http.StatusOK (api.getOrderRes o)).
Proof.
  apply (created_order_can_be_read mongo.healthy fixtures.uuid0 fixtures.charge_created
           (samples.post_request samples.valid_args)
           {| api.stor := samples.two_orders; api.charged := [] |}
           samples.valid_args);
    try reflexivity.
  - discriminate.
  - vm_compute. discriminate.
  - simpl. intros [H|[H|[]]]; discriminate.
Defined.

(* ------------------------------------------------------------------ *)
(** ** Charging: every way through [chargeOrder] *)

(** The outcomes of [chargeOrder] on the stored orders, one per [return]
    of the handler. *)
Lemma chargeOrder_cases (f : mongo.Faults) (u : uuid.UUID)
    (chargeService : http.Client api.chargeServiceChargeArgs.t)
    (c : api.Context) (w : api.World storage.Instance) :
  let run := api.chargeOrder (SI := storage_Instance f u) chargeService c w in
  let id := gin.Param (api.Params c) "id" in
  (fst run = w /\
   exists msg,
     snd run = api.JSON http.StatusBadRequest (api.H_error msg) \/
     snd run = api.JSON http.StatusNotFound (api.H_error msg) \/
     snd run = api.JSON http.StatusConflict (api.H_error msg) \/
     (snd run = api.JSON http.StatusInternalServerError (api.H_error msg) /\
      snd (storage.GetOrder f (api.stor w) id) <> None)) \/
  exists args order,
    api.BindJSON_chargeOrderArgs (api.Req c) = inl args /\
    storage.GetOrder f (api.stor w) id = (order, None) /\
    storage.Status order = storage.OrderStatusCharged /\
    let sent := {| api.chargeServiceChargeArgs.CardToken := api.chargeOrderArgs.CardToken args;
                   api.chargeServiceChargeArgs.AmountCents := storage.TotalCents order |} in
    let set := storage.SetOrderStatus f (api.stor w) (storage.ID order)
                 storage.OrderStatusCharged in
    api.charged (fst run) = (api.charged w ++ [sent])%list /\
    ((exists err,
        snd (api.innerChargeOrder chargeService w sent) = Some err /\
        api.stor (fst run) = api.stor w /\
        snd run = api.JSON http.StatusInternalServerError (api.H_error (Error err))) \/
     (snd (api.innerChargeOrder chargeService w sent) = None /\
      api.stor (fst run) = fst set /\
      snd run = match snd set with
                | Some err =>
                    api.JSON http.StatusInternalServerError
                      (api.H_error ("error updating order to charged: " ++ Error err))
                | None => api.JSON http.StatusOK (api.chargeOrderRes (storage.TotalCents order))
                end)).
Proof.
  intros run id. subst run. unfold api.chargeOrder.
  destruct (api.BindJSON_chargeOrderArgs (api.Req c)) as [args|e];
    [|left; split; [reflexivity|eexists; left; reflexivity]].
  simpl. fold id. rewrite with_stor_same.
  destruct (storage.GetOrder f (api.stor w) id) as [order [e|]] eqn:G.
  { left. destruct (errors_Is e ErrOrderNotFound); (split; [reflexivity|]).
    - eexists. right. left. reflexivity.
    - eexists. right. right. right. split; [reflexivity|discriminate]. }
  destruct (Z.eqb_spec (storage.Status order) storage.OrderStatusCharged) as [E|N];
    [|left; split; [reflexivity|eexists; right; right; left; reflexivity]].
  right. exists args, order.
  split; [reflexivity|]. split; [reflexivity|]. split; [exact E|]. simpl.
  set (sent := {| api.chargeServiceChargeArgs.CardToken := api.chargeOrderArgs.CardToken args;
                  api.chargeServiceChargeArgs.AmountCents := storage.TotalCents order |}).
  pose proof (innerChargeOrder_world chargeService w sent) as W.
  destruct (api.innerChargeOrder chargeService w sent) as [w1 [err|]]; simpl in W; subst w1.
  - split; [reflexivity|]. left. exists err. now repeat split.
  - simpl.
    destruct (storage.SetOrderStatus f (api.stor w) (storage.ID order)
                storage.OrderStatusCharged) as [s [err|]]; simpl;
      (split; [reflexivity|]); right; now repeat split.
Qed.

(** X20: [chargeOrder] posts to the charge service at most once per
    request, and only after the order was read without error; the amount
    posted is the [TotalCents] of the order that was read and the card
    token is the one of the body. *)
Theorem chargeOrder_charges_at_most_once (f : mongo.Faults) (u : uuid.UUID)
    (chargeService : http.Client api.chargeServiceChargeArgs.t)
    (c : api.Context) (w : api.World storage.Instance) :
  let run := api.chargeOrder (SI := storage_Instance f u) chargeService c w in
  api.charged (fst run) = api.charged w \/
  exists args order,
    api.BindJSON_chargeOrderArgs (api.Req c) = inl args /\
    storage.GetOrder f (api.stor w) (gin.Param (api.Params c) "id") = (order, None) /\
    api.charged (fst run)
    = (api.charged w ++
       [ {| api.chargeServiceChargeArgs.CardToken := api.chargeOrderArgs.CardToken args;
            api.chargeServiceChargeArgs.AmountCents := storage.TotalCents order |} ])%list.
Proof.
  destruct (chargeOrder_cases f u chargeService c w)
    as [[W _]|[args [order [B [G [_ [C _]]]]]]]; simpl.
  - left. now rewrite W.
  - right. now exists args, order.
Qed.

(** X21: a 200 from [chargeOrder] means that the charge was made and the
    status written: the charge service answered 201 to one request, for the
    card token of the body and the amount the answer reports as
    [chargedCents], and [SetOrderStatus] to charged returned no error, the
    store being the one it left. *)
Theorem chargeOrder_ok_means_charged (f : mongo.Faults) (u : uuid.UUID)
    (chargeService : http.Client api.chargeServiceChargeArgs.t)
    (c : api.Context) (w : api.World storage.Instance) :
  let run := api.chargeOrder (SI := storage_Instance f u) chargeService c w in
  api.status (snd run) = http.StatusOK ->
  exists args order resp,
    api.BindJSON_chargeOrderArgs (api.Req c) = inl args /\
    storage.GetOrder f (api.stor w) (gin.Param (api.Params c) "id") = (order, None) /\
    let sent := {| api.chargeServiceChargeArgs.CardToken := api.chargeOrderArgs.CardToken args;
                   api.chargeServiceChargeArgs.AmountCents := storage.TotalCents order |} in
    chargeService "/charge" sent = inl resp /\
    http.StatusCode resp = http.StatusCreated /\
    api.charged (fst run) = (api.charged w ++ [sent])%list /\
    snd run = api.JSON http.StatusOK
                (api.chargeOrderRes (api.chargeServiceChargeArgs.AmountCents sent)) /\
    storage.SetOrderStatus f (api.stor w) (storage.ID order) storage.OrderStatusCharged
    = (api.stor (fst run), None).
Proof.
  intros run H. subst run.
  destruct (chargeOrder_cases f u chargeService c w)
    as [[_ [msg [R|[R|[R|[R _]]]]]]
       |[args [order [B [G [_ [C [[err [_ [_ R]]]|[I [S R]]]]]]]]]];
    simpl in *; try (rewrite R in H; discriminate).
  apply innerChargeOrder_nil_iff_created in I. destruct I as [resp [P Q]].
  exists args, order, resp. repeat split; try assumption.
  - destruct (storage.SetOrderStatus f (api.stor w) (storage.ID order)
                storage.OrderStatusCharged) as [s [e|]]; simpl in *;
      [rewrite R in H; discriminate|exact R].
  - destruct (storage.SetOrderStatus f (api.stor w) (storage.ID order)
                storage.OrderStatusCharged) as [s [e|]]; simpl in *;
      [rewrite R in H; discriminate|now rewrite S].
Qed.

(** The already charged order of the tests and a charge service that
    creates the charge. *)
Lemma chargeOrder_ok_means_charged_witness :
  let w := fixtures.world_of
             [fixtures.order storage.OrderStatusCharged [fixtures.item "item 1" 100 1]] in
  let run := api.chargeOrder (SI := storage_Instance mongo.healthy fixtures.uuid0)
               fixtures.charge_created (samples.charge_context "test") w in
  exists args order resp,
    api.BindJSON_chargeOrderArgs (api.Req (samples.charge_context "test")) = inl args /\
    storage.GetOrder mongo.healthy (api.stor w) "test" = (order, None) /\
    let sent := {| api.chargeServiceChargeArgs.CardToken := api.chargeOrderArgs.CardToken args;
                   api.chargeServiceChargeArgs.AmountCents := storage.TotalCents order |} in
    fixtures.charge_created "/charge" sent = inl resp /\
    http.StatusCode resp = http.StatusCreated /\
    api.charged (fst run) = (api.charged w ++ [sent])%list /\
    snd run = api.JSON http.StatusOK
                (api.chargeOrderRes (api.chargeServiceChargeArgs.AmountCents sent)) /\
    storage.SetOrderStatus mongo.healthy (api.stor w) (storage.ID order)
      storage.OrderStatusCharged
    = (api.stor (fst run), None).
Proof.
  apply (chargeOrder_ok_means_charged mongo.healthy fixtures.uuid0 fixtures.charge_created
           (samples.charge_context "test")
           (fixtures.world_of
              [fixtures.order storage.OrderStatusCharged [fixtures.item "item 1" 100 1]])).
  reflexivity.
Defined.

(** X22: the gap the handler's own comment describes.  When the charge
    service has created the charge and the driver then fails to update the
    order, [chargeOrder] answers 500 "error updating order to charged",
    with the driver's error; the charge is made and the store is what it
    was before, so the order does not show it. *)
Theorem chargeOrder_charged_but_not_recorded (f : mongo.Faults) (u : uuid.UUID)
    (chargeService : http.Client api.chargeServiceChargeArgs.t)
    (c : api.Context) (w w' : api.World storage.Instance)
    (written : list api.Reply) (args : api.chargeServiceChargeArgs.t)
    (resp : http.Response) (e : error) :
  api.chargeOrder (SI := storage_Instance f u) chargeService c w = (w', written) ->
  api.charged w' = (api.charged w ++ [args])%list ->
  chargeService "/charge" args = inl resp ->
  http.StatusCode resp = http.StatusCreated ->
  mongo.UpdateOneErr f = Some e ->
  written = api.JSON http.StatusInternalServerError
              (api.H_error ("error updating order to charged: " ++ Error e)) /\
  api.stor w' = api.stor w.
Proof.
  intros Run Called P Q U.
  destruct (chargeOrder_cases f u chargeService c w)
    as [[W _]|[a [order [_ [_ [_ [C K]]]]]]]; rewrite Run in *; simpl in *.
  - subst w'. now apply app_one_neq in Called.
  - rewrite Called in C. apply app_inv_head in C. injection C as C. subst args.
    assert (I : snd (api.innerChargeOrder chargeService w
                       {| api.chargeServiceChargeArgs.CardToken := api.chargeOrderArgs.CardToken a;
                          api.chargeServiceChargeArgs.AmountCents := storage.TotalCents order |})
                = None).
    { apply innerChargeOrder_nil_iff_created. now exists resp. }
    destruct K as [[err [X _]]|[_ [S R]]]; [congruence|].
    unfold storage.SetOrderStatus, mongo.UpdateOne in S, R. rewrite U in S, R.
    simpl in S, R. split; [exact R|]. rewrite S. now destruct (api.stor w).
Qed.

Lemma chargeOrder_charged_but_not_recorded_witness :
  let f := samples.failing_UpdateOne (ErrOther "context deadline exceeded") in
  let w := fixtures.world_of
             [fixtures.order storage.OrderStatusCharged [fixtures.item "item 1" 100 1]] in
  let run := api.chargeOrder (SI := storage_Instance f fixtures.uuid0)
               fixtures.charge_created (samples.charge_context "test") w in
  snd run = api.JSON http.StatusInternalServerError
              (api.H_error ("error updating order to charged: context deadline exceeded")) /\
  api.stor (fst run) = api.stor w.
Proof.
  intros f w run.
  apply (chargeOrder_charged_but_not_recorded f fixtures.uuid0 fixtures.charge_created
           (samples.charge_context "test") w (fst run) (snd run)
           {| api.chargeServiceChargeArgs.CardToken := "amex";
              api.chargeServiceChargeArgs.AmountCents := 100 |}
           {| http.StatusCode := http.StatusCreated; http.Body := "" |}
           (ErrOther "context deadline exceeded")); reflexivity.
Defined.

Lemma update_first_pointwise {A} (p : A -> bool) (upd : A -> A) (l : list A) :
  Forall2 (fun a a' => a' = a \/ a' = upd a) l (mongo.update_first p upd l).
Proof.
  induction l as [|a l IH]; simpl; [constructor|].
  destruct (p a); constructor; auto.
  clear. induction l; constructor; auto.
Qed.

Lemma Forall2_same {A} (R : A -> A -> Prop) (l : list A) :
  (forall a, R a a) -> Forall2 R l l.
Proof. intros H. induction l; constructor; auto. Qed.

(** X23: whatever the request, the driver and the charge service,
    [chargeOrder] leaves the store with the same orders in the same places,
    each one either untouched or with its status set to charged and every
    other field (id, e-mail address, line items) kept: it neither adds nor
    removes an order, and it changes no total. *)
Theorem chargeOrder_only_sets_status (f : mongo.Faults) (u : uuid.UUID)
    (chargeService : http.Client api.chargeServiceChargeArgs.t)
    (c : api.Context) (w : api.World storage.Instance) :
  let run := api.chargeOrder (SI := storage_Instance f u) chargeService c w in
  storage.database (api.stor (fst run)) = storage.database (api.stor w) /\
  Forall2
    (fun o o' =>
       o' = o \/
       o' = {| storage.ID := storage.ID o;
               storage.CustomerEmail := storage.CustomerEmail o;
               storage.LineItems := storage.LineItems o;
               storage.Status := storage.OrderStatusCharged |})
    (storage.collection (api.stor w))
    (storage.collection (api.stor (fst run))).
Proof.
  destruct (chargeOrder_cases f u chargeService c w)
    as [[W _]|[a [order [_ [_ [_ [_ [[err [_ [S _]]]|[_ [S _]]]]]]]]]]; simpl in *.
  - rewrite W. split; [reflexivity|]. apply Forall2_same. auto.
  - rewrite S. split; [reflexivity|]. apply Forall2_same. auto.
  - rewrite S. unfold storage.SetOrderStatus, mongo.UpdateOne.
    destruct (mongo.UpdateOneErr f); simpl.
    + split; [reflexivity|]. apply Forall2_same. auto.
    + destruct (_ =? 0)%Z; simpl; (split; [reflexivity|]);
        apply (update_first_pointwise _ (storage.set_status storage.OrderStatusCharged)).
Qed.

(** X24: with the charge service that [main] hands to [api.Handler], the
    handler that answers 501 "not implemented" to everything, no request to
    [chargeOrder] is answered 200 and none changes the store, whatever the
    stored orders and the driver. *)
Theorem chargeOrder_as_wired_never_charges (f : mongo.Faults) (u : uuid.UUID)
    (c : api.Context) (w : api.World storage.Instance) :
  let run := api.chargeOrder (SI := storage_Instance f u) main.chargeService c w in
  api.status (snd run) <> http.StatusOK /\
  api.stor (fst run) = api.stor w.
Proof.
  destruct (chargeOrder_cases f u main.chargeService c w)
    as [[W [msg [R|[R|[R|[R _]]]]]]
       |[a [order [_ [_ [_ [_ [[err [_ [S R]]]|[I _]]]]]]]]]; simpl in *;
    try (rewrite R, ?W, ?S; split; [discriminate|reflexivity]).
  discriminate I.
Qed.

(* ------------------------------------------------------------------ *)
(** ** The router *)

(** X25: what [Handler] routes, for a request path without empty segment.
    GET /orders goes to [getOrders], POST /orders to [postOrders],
    GET /orders/<id> to [getOrder] and POST /orders/<id>/charge to
    [chargeOrder], the last two with [c.Param("id")] bound to the segment;
    every other method or path (a fulfil or cancel request among them) is
    answered with gin's 404 and changes nothing. *)
Theorem ServeHTTP_routes {S : Type} {SI : mocks.StorageInstance S}
    (chargeService : http.Client api.chargeServiceChargeArgs.t)
    (r : api.Request) (w : api.World S) :
  Forall (fun segment => segment <> "") (api.Path r) ->
  let serve := api.ServeHTTP chargeService r w in
  let c params := {| api.Req := r; api.Params := params |} in
  (api.Method r = "GET" -> api.Path r = ["orders"] ->
   serve = api.getOrders (c []) w) /\
  (api.Method r = "POST" -> api.Path r = ["orders"] ->
   serve = api.postOrders (c []) w) /\
  (forall id, api.Method r = "GET" -> api.Path r = ["orders"; id] ->
   serve = api.getOrder (c [("id", id)]) w /\ gin.Param [("id", id)] "id" = id) /\
  (forall id, api.Method r = "POST" -> api.Path r = ["orders"; id; "charge"] ->
   serve = api.chargeOrder chargeService (c [("id", id)]) w /\
   gin.Param [("id", id)] "id" = id) /\
  (~ (api.Method r = "GET" /\
      (api.Path r = ["orders"] \/ exists id, api.Path r = ["orders"; id])) ->
   ~ (api.Method r = "POST" /\
      (api.Path r = ["orders"] \/ exists id, api.Path r = ["orders"; id; "charge"])) ->
   serve = (w, samples.not_found)).
Proof.
  intros Clean serve c. subst serve.
  unfold api.ServeHTTP, api.routes, api.dispatch.
  split; [|split; [|split; [|split]]].
  - intros M P. now rewrite M, P.
  - intros M P. now rewrite M, P.
  - intros id M P. rewrite P in Clean. rewrite M, P. simpl.
    inversion Clean as [|? ? _ Clean']. inversion Clean' as [|? ? N _]. subst.
    destruct (String.eqb_spec id "") as [E|_]; [contradiction|now split].
  - intros id M P. rewrite P in Clean. rewrite M, P. simpl.
    inversion Clean as [|? ? _ Clean']. inversion Clean' as [|? ? N _]. subst.
    destruct (String.eqb_spec id "") as [E|_]; [contradiction|now split].
  - intros G P.
    destruct (String.eqb_spec "GET" (api.Method r)) as [MG|MG];
      destruct (String.eqb_spec "POST" (api.Method r)) as [MP|MP];
      try congruence.
    + destruct (api.Path r) as [|a [|b [|x l]]]; cbn -[String.eqb]; try reflexivity.
      * destruct (String.eqb_spec "orders" a) as [<-|_]; [|reflexivity].
        exfalso. apply G. split; [congruence|now left].
      * destruct (String.eqb_spec "orders" a) as [<-|_]; [|reflexivity].
        exfalso. apply G. split; [congruence|right; now exists b].
      * destruct (String.eqb_spec "orders" a) as [<-|_]; [|reflexivity].
        destruct (String.eqb_spec b ""); reflexivity.
    + destruct (api.Path r) as [|a [|b [|x [|y l]]]]; cbn -[String.eqb]; try reflexivity.
      * destruct (String.eqb_spec "orders" a) as [<-|_]; [|reflexivity].
        exfalso. apply P. split; [congruence|now left].
      * destruct (String.eqb_spec "orders" a) as [<-|_]; [|reflexivity].
        destruct (String.eqb_spec b ""); reflexivity.
      * destruct (String.eqb_spec "orders" a) as [<-|_]; [|reflexivity].
        destruct (String.eqb_spec b ""); [reflexivity|].
        destruct (String.eqb_spec "charge" x) as [<-|_]; [|reflexivity].
        exfalso. apply P. split; [congruence|right; now exists b].
      * destruct (String.eqb_spec "orders" a) as [<-|_]; [|reflexivity].
        destruct (String.eqb_spec b ""); [reflexivity|].
        destruct (String.eqb_spec "charge" x) as [<-|_]; reflexivity.
    + reflexivity.
Qed.

(** A DELETE of a stored order: no route. *)
Lemma ServeHTTP_routes_witness :
  let w := {| api.stor := samples.two_orders; api.charged := [] |} in
  api.ServeHTTP (SI := storage_Instance mongo.healthy fixtures.uuid0)
    fixtures.charge_created
    (fixtures.request "DELETE" ["orders"; "test1"]
       (inr (ErrOther "EOF")) (inr (ErrOther "EOF"))) w
  = (w, samples.not_found).
Proof.
  intros w.
  destruct (ServeHTTP_routes (SI := storage_Instance mongo.healthy fixtures.uuid0)
              fixtures.charge_created
              (fixtures.request "DELETE" ["orders"; "test1"]
                 (inr (ErrOther "EOF")) (inr (ErrOther "EOF"))) w)
    as [_ [_ [_ [_ H]]]].
  - repeat constructor; discriminate.
  - apply H; intros [M _]; discriminate.
Defined.
